(** * Atom fullscreen-triangle pass and graph document view

    A shallow embedding of

      - [Gems/Atom/RPI/Code/Source/RPI.Public/Pass/FullscreenTrianglePass.cpp]
      - [Gems/Atom/Tools/AtomToolsFramework/Code/Source/Graph/GraphDocumentView.cpp]

    Member variables become record fields, every member function becomes a
    function from the object's state to its next state, and calls into the
    engine (error log, pass system, buses, command list) are appended to a
    chronological log carried by the state.  Values that only the engine can
    produce (a located shader asset, a created shader resource group, an
    acquired pipeline state) are taken from a [Host] record of functions.

    [AZ_Assert] checks are debugging aids that do not change any state and
    are not part of the embedding; where the code goes on to dereference a
    pointer the assertion was guarding, the embedding returns [None]. *)

From Stdlib Require Import ZArith List String Bool Lia SpecFloat.
Import ListNotations.
Local Open Scope Z_scope.

(* ================================================================== *)
(** ** Machine numbers used by the pass *)

Module Num.

(** [uint32_t] and [int32_t] are integers with their ranges written out. *)
Definition is_uint32 (z : Z) : Prop := 0 <= z < 2 ^ 32.
Definition is_int32 (z : Z) : Prop := - 2 ^ 31 <= z < 2 ^ 31.

(** [static_cast<uint32_t>(i)] for an [int32_t] [i]: reduction modulo 2^32. *)
Definition int32_to_uint32 (i : Z) : Z := i mod 2 ^ 32.

(** Storing a [uint32_t] into an [int32_t] field: the value modulo 2^32
    that lies in the signed range. *)
Definition uint32_to_int32 (u : Z) : Z :=
  if u <? 2 ^ 31 then u else u - 2 ^ 32.

(** [static_cast<uint8_t>(u)]. *)
Definition uint32_to_uint8 (u : Z) : Z := u mod 2 ^ 8.

(** [float] is IEEE-754 binary32: 24 bits of precision, infinities at
    exponent 128. *)
Definition float : Type := spec_float.
Definition float_prec : Z := 24.
Definition float_emax : Z := 128.
Definition float_valid (f : float) : bool := valid_binary float_prec float_emax f.

Definition float_is_nan (f : float) : bool :=
  match f with S754_nan => true | _ => false end.

(** [a > b] and [a <= b] on floats; both are false when an operand is NaN. *)
Definition float_gtb (a b : float) : bool := SFltb b a.
Definition float_leb (a b : float) : bool := SFleb a b.

(** [static_cast<float>(u)] for a [uint32_t] [u]: round to nearest, ties
    to even. *)
Definition uint32_to_float (u : Z) : float :=
  binary_normalize float_prec float_emax u 0 false.

(** [static_cast<uint32_t>(f)] for a [float] [f]: the fractional part is
    discarded; the conversion has no defined result ([None]) when the
    truncated value does not fit [uint32_t], and for infinities and NaN. *)
Definition float_to_uint32 (f : float) : option Z :=
  match f with
  | S754_zero _ => Some 0
  | S754_finite s m e =>
      let magnitude := Z.shiftl (Zpos m) e in
      if s then (if magnitude =? 0 then Some 0 else None)
      else if magnitude <? 2 ^ 32 then Some magnitude else None
  | S754_infinity _ => None
  | S754_nan => None
  end.

(** [AZStd::min(left, right)], i.e. [(left > right) ? right : left], over
    a type with comparison [gtb]. *)
Definition AZStd_min {T : Type} (gtb : T -> T -> bool) (left right : T) : T :=
  if gtb left right then right else left.

Definition min_u32 : Z -> Z -> Z := AZStd_min Z.gtb.
Definition min_i32 : Z -> Z -> Z := AZStd_min Z.gtb.
Definition min_float : float -> float -> float := AZStd_min float_gtb.

(** Some binary32 constants. *)
Definition f32_1_5 : float := S754_finite false 12582912 (-23).
Definition f32_1 : float := S754_finite false 8388608 (-23).
Definition f32_0 : float := S754_zero false.

End Num.

(* ================================================================== *)
(** ** RHI and RPI data referenced by the pass

    The engine headers that declare these types are outside the two source
    files; the fields below are the ones the pass reads or writes. *)

Module RHI.

Inductive PrimitiveTopology :=
| Undefined | PointList | LineList | LineListAdj | LineStrip | LineStripAdj
| TriangleList | TriangleListAdj | TriangleStrip | TriangleStripAdj | PatchList.

(** [RHI::InputStreamLayout]: a default-constructed layout has no stream
    channels and no stream buffers. *)
Record InputStreamLayout := {
  m_topology : PrimitiveTopology;
  m_streamChannels : list string;
  m_streamBuffers : list Z;
  m_finalized : bool
}.

Definition InputStreamLayout_default : InputStreamLayout :=
  {| m_topology := Undefined; m_streamChannels := []; m_streamBuffers := [];
     m_finalized := false |}.

Definition SetTopology (t : PrimitiveTopology) (l : InputStreamLayout) : InputStreamLayout :=
  {| m_topology := t; m_streamChannels := m_streamChannels l;
     m_streamBuffers := m_streamBuffers l; m_finalized := m_finalized l |}.

Definition Finalize (l : InputStreamLayout) : InputStreamLayout :=
  {| m_topology := m_topology l; m_streamChannels := m_streamChannels l;
     m_streamBuffers := m_streamBuffers l; m_finalized := true |}.

Record DrawLinear := {
  m_instanceCount : Z; m_instanceOffset : Z; m_vertexCount : Z; m_vertexOffset : Z
}.

(** [RHI::DrawLinear()] *)
Definition DrawLinear_default : DrawLinear :=
  {| m_instanceCount := 1; m_instanceOffset := 0; m_vertexCount := 0; m_vertexOffset := 0 |}.

Definition set_vertexCount (n : Z) (d : DrawLinear) : DrawLinear :=
  {| m_instanceCount := m_instanceCount d; m_instanceOffset := m_instanceOffset d;
     m_vertexCount := n; m_vertexOffset := m_vertexOffset d |}.

Record DrawIndexed := {
  di_instanceCount : Z; di_instanceOffset : Z; di_vertexOffset : Z;
  di_indexCount : Z; di_indexOffset : Z
}.

(** [RHI::DrawArguments] is a tagged union of the draw kinds. *)
Inductive DrawArguments :=
| Indexed (d : DrawIndexed)
| Linear (d : DrawLinear)
| Indirect (buffer : Z).

Definition DrawArguments_default : DrawArguments :=
  Indexed {| di_instanceCount := 1; di_instanceOffset := 0; di_vertexOffset := 0;
             di_indexCount := 0; di_indexOffset := 0 |}.

(** A pipeline state owned by the RHI, referenced by address. *)
Definition PipelineStatePtr : Type := N.

(** [RHI::DrawItem]: the geometry views are null / empty unless someone
    sets them. *)
Record DrawItem := {
  m_arguments : DrawArguments;
  m_stencilRef : Z;
  m_pipelineState : option PipelineStatePtr;
  m_indexBufferView : option Z;
  m_streamBufferViews : list Z
}.

Definition DrawItem_default : DrawItem :=
  {| m_arguments := DrawArguments_default; m_stencilRef := 0;
     m_pipelineState := None; m_indexBufferView := None; m_streamBufferViews := [] |}.

(** [RHI::Viewport] has [float] bounds, [RHI::Scissor] has [int32_t]
    bounds, [RHI::Size] has [uint32_t] extents. *)
Record Viewport := {
  vp_minX : Num.float; vp_maxX : Num.float;
  vp_minY : Num.float; vp_maxY : Num.float;
  vp_minZ : Num.float; vp_maxZ : Num.float
}.

Record Scissor := { sc_minX : Z; sc_minY : Z; sc_maxX : Z; sc_maxY : Z }.

Record Size := { m_width : Z; m_height : Z; m_depth : Z }.

Definition Viewport_default : Viewport :=
  {| vp_minX := Num.f32_0; vp_maxX := Num.f32_0; vp_minY := Num.f32_0;
     vp_maxY := Num.f32_0; vp_minZ := Num.f32_0; vp_maxZ := Num.f32_1 |}.

Definition Scissor_default : Scissor :=
  {| sc_minX := 0; sc_minY := 0; sc_maxX := 2 ^ 31 - 1; sc_maxY := 2 ^ 31 - 1 |}.

Inductive AttachmentType := Image | Buffer | Resolve.

(** Commands recorded by [RHI::CommandList]. *)
Inductive Command :=
| SetShaderResourceGroupsForDraw
| SetViewport (v : Viewport)
| SetScissor (s : Scissor)
| Submit (item : DrawItem).

Definition CommandList : Type := list Command.

(** What a scope declares to the frame graph. *)
Record FrameGraphScope := {
  fg_renderPassDeclared : bool;
  fg_estimatedItemCount : Z
}.

End RHI.

Module RPI.

(** [AZ::Data::AssetId]: valid when its guid is not the null uuid. *)
Record AssetId := { m_guid : N; m_subId : N }.

Definition AssetId_null : AssetId := {| m_guid := 0%N; m_subId := 0%N |}.
Definition AssetId_IsValid (a : AssetId) : bool := negb (N.eqb (m_guid a) 0%N).

Record AssetReference := { m_assetId : AssetId; m_filePath : string }.

(** [Data::Asset<ShaderAsset>]; default-constructed it carries the null id. *)
Record ShaderAssetHandle := { asset_id : AssetId; asset_data : option N }.

Definition ShaderAssetHandle_default : ShaderAssetHandle :=
  {| asset_id := AssetId_null; asset_data := None |}.

Record FullscreenTrianglePassData := {
  m_shaderAsset : AssetReference;
  m_stencilRef : Z
}.

(** The descriptor's pass data is polymorphic; only one of its dynamic
    types is the one this pass asks for. *)
Inductive PassData :=
| PassData_FullscreenTriangle (d : FullscreenTrianglePassData)
| PassData_Other (typeName : string).

Record PassDescriptor := {
  m_passName : string;
  m_passData : option PassData
}.

(** [PassUtils::GetPassData<FullscreenTrianglePassData>(descriptor)]:
    null when the descriptor has no data or data of another type. *)
Definition GetPassData (d : PassDescriptor) : option FullscreenTrianglePassData :=
  match m_passData d with
  | Some (PassData_FullscreenTriangle pd) => Some pd
  | _ => None
  end.

Inductive SrgBindingSlot :=
| Slot_Draw | Slot_Object | Slot_Material | Slot_SubPass | Slot_Pass
| Slot_View | Slot_Scene | Slot_Bindless.

Record SrgLayout := { layout_name : string }.

(** Shaders and shader resource groups live in the engine and are held
    through [Data::Instance] pointers. *)
Definition ShaderPtr : Type := N.
Definition SrgPtr : Type := N.
Definition ShaderOptionList : Type := list (string * string).

(** The calls made on [m_pipelineStateForDraw], oldest first.  The helper
    object itself is engine code; its state is the history of calls. *)
Inductive PsoCall :=
| Pso_Init (shader : ShaderPtr) (options : option ShaderOptionList)
| Pso_UpdateSrgVariantFallback (srg : option SrgPtr)
| Pso_SetOutputFromPass
| Pso_SetInputStreamLayout (l : RHI.InputStreamLayout)
| Pso_Finalize.

Definition PipelineStateForDraw : Type := list PsoCall.

Definition is_Pso_Finalize (c : PsoCall) : bool :=
  match c with Pso_Finalize => true | _ => false end.

(** What the engine answers when the pass calls into it. *)
Record Host := {
  FindShaderAsset : AssetId -> string -> ShaderAssetHandle;
  Shader_FindOrCreate : ShaderAssetHandle -> option ShaderPtr;
  Shader_FindShaderResourceGroupLayout : ShaderPtr -> SrgBindingSlot -> option SrgLayout;
  Shader_GetAsset : ShaderPtr -> ShaderAssetHandle;
  Shader_GetSupervariantIndex : ShaderPtr -> Z;
  ShaderResourceGroup_Create : ShaderAssetHandle -> Z -> string -> option SrgPtr;
  Shader_CreateDefaultDrawSrg : ShaderPtr -> bool -> option SrgPtr;
  PipelineStateForDraw_Finalize : PipelineStateForDraw -> option RHI.PipelineStatePtr
}.

Record PassAttachment := {
  att_type : RHI.AttachmentType;
  att_image_size : RHI.Size
}.

Record FramePrepareParams := {
  m_viewportState : RHI.Viewport;
  m_scissorState : RHI.Scissor
}.

(** Calls from the pass into the engine that leave a mark outside the
    pass object. *)
Inductive EngineCall :=
| AZ_Error (window : string) (format : string) (args : list string)
| QueueForInitialization
| ShaderReloadBus_Disconnect
| ShaderReloadBus_Connect (id : AssetId)
| BindDataMappingsToSrg (d : PassDescriptor) (srg : option SrgPtr)
| RenderPass_InitializeInternal
| RenderPass_FrameBeginInternal (params : FramePrepareParams)
| BindPassSrg (srg : SrgPtr)
| Srg_Compile (srg : SrgPtr)
| BindSrg (srg : SrgPtr).

Definition is_QueueForInitialization (c : EngineCall) : bool :=
  match c with QueueForInitialization => true | _ => false end.
Definition is_BindDataMappingsToSrg (c : EngineCall) : bool :=
  match c with BindDataMappingsToSrg _ _ => true | _ => false end.

End RPI.

(* ================================================================== *)
(** ** FullscreenTrianglePass *)

Module FullscreenTrianglePass.

(** The pass object: its own members, the bindings and the engine-side
    effects it inherits from [RenderPass]. *)
Record t := {
  m_passDescriptor : RPI.PassDescriptor;
  m_shader : option RPI.ShaderPtr;
  m_stencilRef : Z;
  m_pipelineStateForDraw : RPI.PipelineStateForDraw;
  m_shaderResourceGroup : option RPI.SrgPtr;
  m_drawShaderResourceGroup : option RPI.SrgPtr;
  m_item : RHI.DrawItem;
  m_viewportState : RHI.Viewport;
  m_scissorState : RHI.Scissor;
  m_outputBindings : list (option RPI.PassAttachment);
  m_inputOutputBindings : list (option RPI.PassAttachment);
  m_engineLog : list RPI.EngineCall
}.

Definition set_shader (v : option RPI.ShaderPtr) (p : t) : t :=
  {| m_passDescriptor := m_passDescriptor p; m_shader := v;
     m_stencilRef := m_stencilRef p;
     m_pipelineStateForDraw := m_pipelineStateForDraw p;
     m_shaderResourceGroup := m_shaderResourceGroup p;
     m_drawShaderResourceGroup := m_drawShaderResourceGroup p;
     m_item := m_item p; m_viewportState := m_viewportState p;
     m_scissorState := m_scissorState p;
     m_outputBindings := m_outputBindings p;
     m_inputOutputBindings := m_inputOutputBindings p;
     m_engineLog := m_engineLog p |}.

Definition set_stencilRef (v : Z) (p : t) : t :=
  {| m_passDescriptor := m_passDescriptor p; m_shader := m_shader p;
     m_stencilRef := v;
     m_pipelineStateForDraw := m_pipelineStateForDraw p;
     m_shaderResourceGroup := m_shaderResourceGroup p;
     m_drawShaderResourceGroup := m_drawShaderResourceGroup p;
     m_item := m_item p; m_viewportState := m_viewportState p;
     m_scissorState := m_scissorState p;
     m_outputBindings := m_outputBindings p;
     m_inputOutputBindings := m_inputOutputBindings p;
     m_engineLog := m_engineLog p |}.

(** A call on [m_pipelineStateForDraw]. *)
Definition pso_call (c : RPI.PsoCall) (p : t) : t :=
  {| m_passDescriptor := m_passDescriptor p; m_shader := m_shader p;
     m_stencilRef := m_stencilRef p;
     m_pipelineStateForDraw := m_pipelineStateForDraw p ++ [c];
     m_shaderResourceGroup := m_shaderResourceGroup p;
     m_drawShaderResourceGroup := m_drawShaderResourceGroup p;
     m_item := m_item p; m_viewportState := m_viewportState p;
     m_scissorState := m_scissorState p;
     m_outputBindings := m_outputBindings p;
     m_inputOutputBindings := m_inputOutputBindings p;
     m_engineLog := m_engineLog p |}.

Definition set_shaderResourceGroup (v : option RPI.SrgPtr) (p : t) : t :=
  {| m_passDescriptor := m_passDescriptor p; m_shader := m_shader p;
     m_stencilRef := m_stencilRef p;
     m_pipelineStateForDraw := m_pipelineStateForDraw p;
     m_shaderResourceGroup := v;
     m_drawShaderResourceGroup := m_drawShaderResourceGroup p;
     m_item := m_item p; m_viewportState := m_viewportState p;
     m_scissorState := m_scissorState p;
     m_outputBindings := m_outputBindings p;
     m_inputOutputBindings := m_inputOutputBindings p;
     m_engineLog := m_engineLog p |}.

Definition set_drawShaderResourceGroup (v : option RPI.SrgPtr) (p : t) : t :=
  {| m_passDescriptor := m_passDescriptor p; m_shader := m_shader p;
     m_stencilRef := m_stencilRef p;
     m_pipelineStateForDraw := m_pipelineStateForDraw p;
     m_shaderResourceGroup := m_shaderResourceGroup p;
     m_drawShaderResourceGroup := v;
     m_item := m_item p; m_viewportState := m_viewportState p;
     m_scissorState := m_scissorState p;
     m_outputBindings := m_outputBindings p;
     m_inputOutputBindings := m_inputOutputBindings p;
     m_engineLog := m_engineLog p |}.

Definition set_item (v : RHI.DrawItem) (p : t) : t :=
  {| m_passDescriptor := m_passDescriptor p; m_shader := m_shader p;
     m_stencilRef := m_stencilRef p;
     m_pipelineStateForDraw := m_pipelineStateForDraw p;
     m_shaderResourceGroup := m_shaderResourceGroup p;
     m_drawShaderResourceGroup := m_drawShaderResourceGroup p;
     m_item := v; m_viewportState := m_viewportState p;
     m_scissorState := m_scissorState p;
     m_outputBindings := m_outputBindings p;
     m_inputOutputBindings := m_inputOutputBindings p;
     m_engineLog := m_engineLog p |}.

Definition set_viewportState (v : RHI.Viewport) (p : t) : t :=
  {| m_passDescriptor := m_passDescriptor p; m_shader := m_shader p;
     m_stencilRef := m_stencilRef p;
     m_pipelineStateForDraw := m_pipelineStateForDraw p;
     m_shaderResourceGroup := m_shaderResourceGroup p;
     m_drawShaderResourceGroup := m_drawShaderResourceGroup p;
     m_item := m_item p; m_viewportState := v;
     m_scissorState := m_scissorState p;
     m_outputBindings := m_outputBindings p;
     m_inputOutputBindings := m_inputOutputBindings p;
     m_engineLog := m_engineLog p |}.

Definition set_scissorState (v : RHI.Scissor) (p : t) : t :=
  {| m_passDescriptor := m_passDescriptor p; m_shader := m_shader p;
     m_stencilRef := m_stencilRef p;
     m_pipelineStateForDraw := m_pipelineStateForDraw p;
     m_shaderResourceGroup := m_shaderResourceGroup p;
     m_drawShaderResourceGroup := m_drawShaderResourceGroup p;
     m_item := m_item p; m_viewportState := m_viewportState p;
     m_scissorState := v;
     m_outputBindings := m_outputBindings p;
     m_inputOutputBindings := m_inputOutputBindings p;
     m_engineLog := m_engineLog p |}.

(** The pass system (outside this file) attaches the bindings. *)
Definition set_bindings (outs inouts : list (option RPI.PassAttachment)) (p : t) : t :=
  {| m_passDescriptor := m_passDescriptor p; m_shader := m_shader p;
     m_stencilRef := m_stencilRef p;
     m_pipelineStateForDraw := m_pipelineStateForDraw p;
     m_shaderResourceGroup := m_shaderResourceGroup p;
     m_drawShaderResourceGroup := m_drawShaderResourceGroup p;
     m_item := m_item p; m_viewportState := m_viewportState p;
     m_scissorState := m_scissorState p;
     m_outputBindings := outs;
     m_inputOutputBindings := inouts;
     m_engineLog := m_engineLog p |}.

(** A call into the engine, appended to the log. *)
Definition engine (c : RPI.EngineCall) (p : t) : t :=
  {| m_passDescriptor := m_passDescriptor p; m_shader := m_shader p;
     m_stencilRef := m_stencilRef p;
     m_pipelineStateForDraw := m_pipelineStateForDraw p;
     m_shaderResourceGroup := m_shaderResourceGroup p;
     m_drawShaderResourceGroup := m_drawShaderResourceGroup p;
     m_item := m_item p; m_viewportState := m_viewportState p;
     m_scissorState := m_scissorState p;
     m_outputBindings := m_outputBindings p;
     m_inputOutputBindings := m_inputOutputBindings p;
     m_engineLog := m_engineLog p ++ [c] |}.

(** Draw-item and rectangle field updates. *)
Definition item_set_arguments (a : RHI.DrawArguments) (i : RHI.DrawItem) : RHI.DrawItem :=
  {| RHI.m_arguments := a; RHI.m_stencilRef := RHI.m_stencilRef i;
     RHI.m_pipelineState := RHI.m_pipelineState i;
     RHI.m_indexBufferView := RHI.m_indexBufferView i;
     RHI.m_streamBufferViews := RHI.m_streamBufferViews i |}.

Definition item_set_pipelineState (s : option RHI.PipelineStatePtr) (i : RHI.DrawItem) : RHI.DrawItem :=
  {| RHI.m_arguments := RHI.m_arguments i; RHI.m_stencilRef := RHI.m_stencilRef i;
     RHI.m_pipelineState := s;
     RHI.m_indexBufferView := RHI.m_indexBufferView i;
     RHI.m_streamBufferViews := RHI.m_streamBufferViews i |}.

Definition item_set_stencilRef (r : Z) (i : RHI.DrawItem) : RHI.DrawItem :=
  {| RHI.m_arguments := RHI.m_arguments i; RHI.m_stencilRef := r;
     RHI.m_pipelineState := RHI.m_pipelineState i;
     RHI.m_indexBufferView := RHI.m_indexBufferView i;
     RHI.m_streamBufferViews := RHI.m_streamBufferViews i |}.

Definition vp_set_maxX (f : Num.float) (v : RHI.Viewport) : RHI.Viewport :=
  {| RHI.vp_minX := RHI.vp_minX v; RHI.vp_maxX := f; RHI.vp_minY := RHI.vp_minY v;
     RHI.vp_maxY := RHI.vp_maxY v; RHI.vp_minZ := RHI.vp_minZ v; RHI.vp_maxZ := RHI.vp_maxZ v |}.
Definition vp_set_maxY (f : Num.float) (v : RHI.Viewport) : RHI.Viewport :=
  {| RHI.vp_minX := RHI.vp_minX v; RHI.vp_maxX := RHI.vp_maxX v; RHI.vp_minY := RHI.vp_minY v;
     RHI.vp_maxY := f; RHI.vp_minZ := RHI.vp_minZ v; RHI.vp_maxZ := RHI.vp_maxZ v |}.
Definition vp_set_minX (f : Num.float) (v : RHI.Viewport) : RHI.Viewport :=
  {| RHI.vp_minX := f; RHI.vp_maxX := RHI.vp_maxX v; RHI.vp_minY := RHI.vp_minY v;
     RHI.vp_maxY := RHI.vp_maxY v; RHI.vp_minZ := RHI.vp_minZ v; RHI.vp_maxZ := RHI.vp_maxZ v |}.
Definition vp_set_minY (f : Num.float) (v : RHI.Viewport) : RHI.Viewport :=
  {| RHI.vp_minX := RHI.vp_minX v; RHI.vp_maxX := RHI.vp_maxX v; RHI.vp_minY := f;
     RHI.vp_maxY := RHI.vp_maxY v; RHI.vp_minZ := RHI.vp_minZ v; RHI.vp_maxZ := RHI.vp_maxZ v |}.

Definition sc_set_maxX (z : Z) (s : RHI.Scissor) : RHI.Scissor :=
  {| RHI.sc_minX := RHI.sc_minX s; RHI.sc_minY := RHI.sc_minY s;
     RHI.sc_maxX := z; RHI.sc_maxY := RHI.sc_maxY s |}.
Definition sc_set_maxY (z : Z) (s : RHI.Scissor) : RHI.Scissor :=
  {| RHI.sc_minX := RHI.sc_minX s; RHI.sc_minY := RHI.sc_minY s;
     RHI.sc_maxX := RHI.sc_maxX s; RHI.sc_maxY := z |}.
Definition sc_set_minX (z : Z) (s : RHI.Scissor) : RHI.Scissor :=
  {| RHI.sc_minX := z; RHI.sc_minY := RHI.sc_minY s;
     RHI.sc_maxX := RHI.sc_maxX s; RHI.sc_maxY := RHI.sc_maxY s |}.
Definition sc_set_minY (z : Z) (s : RHI.Scissor) : RHI.Scissor :=
  {| RHI.sc_minX := RHI.sc_minX s; RHI.sc_minY := z;
     RHI.sc_maxX := RHI.sc_maxX s; RHI.sc_maxY := RHI.sc_maxY s |}.

(** The three error messages of the file. *)
Definition msg_no_pass_data : string :=
  "[FullscreenTrianglePass '%s']: Trying to construct without valid FullscreenTrianglePassData!".
Definition msg_failed_to_load : string :=
  "[FullscreenTrianglePass '%s']: Failed to load shader '%s'!".
Definition msg_not_loaded : string :=
  "[FullscreenTrianglePass]: Shader not loaded!".

(** [GetPathName().GetCStr()] *)
Definition GetPathName (p : t) : string := RPI.m_passName (m_passDescriptor p).

(** The state left by the [RenderPass(descriptor)] base constructor and
    the default member initialisers. *)
Definition RenderPass_ctor (descriptor : RPI.PassDescriptor) : t :=
  {| m_passDescriptor := descriptor; m_shader := None; m_stencilRef := 0;
     m_pipelineStateForDraw := [];
     m_shaderResourceGroup := None; m_drawShaderResourceGroup := None;
     m_item := RHI.DrawItem_default;
     m_viewportState := RHI.Viewport_default;
     m_scissorState := RHI.Scissor_default;
     m_outputBindings := []; m_inputOutputBindings := [];
     m_engineLog := [] |}.

Section Members.
Variable host : RPI.Host.

Definition GetShader (p : t) : option RPI.ShaderPtr := m_shader p.

Definition UpdateSrgs (p : t) : t :=
  match m_shader p with
  | None => p
  | Some shader =>
      (* Load Pass SRG *)
      let p1 :=
        match RPI.Shader_FindShaderResourceGroupLayout host shader RPI.Slot_Pass with
        | Some passSrgLayout =>
            let created :=
              RPI.ShaderResourceGroup_Create host
                (RPI.Shader_GetAsset host shader)
                (RPI.Shader_GetSupervariantIndex host shader)
                (RPI.layout_name passSrgLayout) in
            let p' := set_shaderResourceGroup created p in
            engine (RPI.BindDataMappingsToSrg (m_passDescriptor p')
                      (m_shaderResourceGroup p')) p'
        | None => p
        end in
      (* Load Draw SRG *)
      let compileDrawSrg := false in
      let p2 :=
        set_drawShaderResourceGroup
          (RPI.Shader_CreateDefaultDrawSrg host shader compileDrawSrg) p1 in
      pso_call (RPI.Pso_UpdateSrgVariantFallback (m_shaderResourceGroup p2)) p2
  end.

Definition OnShaderReinitialized (p : t) : t := UpdateSrgs p.

Definition OnShaderAssetReinitialized (p : t) : t := UpdateSrgs p.

Definition LoadShader (p : t) : t :=
  (* Load FullscreenTrianglePassData *)
  match RPI.GetPassData (m_passDescriptor p) with
  | None =>
      engine (RPI.AZ_Error "PassSystem" msg_no_pass_data [GetPathName p]) p
  | Some passData =>
      (* Load Shader *)
      let ref := RPI.m_shaderAsset passData in
      let shaderAsset :=
        if RPI.AssetId_IsValid (RPI.m_assetId ref)
        then RPI.FindShaderAsset host (RPI.m_assetId ref) (RPI.m_filePath ref)
        else RPI.ShaderAssetHandle_default in
      if negb (RPI.AssetId_IsValid (RPI.asset_id shaderAsset)) then
        engine (RPI.AZ_Error "PassSystem" msg_failed_to_load
                  [GetPathName p; RPI.m_filePath ref]) p
      else
        let p1 := set_shader (RPI.Shader_FindOrCreate host shaderAsset) p in
        match m_shader p1 with
        | None =>
            engine (RPI.AZ_Error "PassSystem" msg_failed_to_load
                      [GetPathName p1; RPI.m_filePath ref]) p1
        | Some shader =>
            (* Store stencil reference value for the draw call *)
            let p2 := set_stencilRef (RPI.m_stencilRef passData) p1 in
            let p3 := pso_call (RPI.Pso_Init shader None) p2 in
            let p4 := UpdateSrgs p3 in
            let p5 := engine RPI.QueueForInitialization p4 in
            let p6 := engine RPI.ShaderReloadBus_Disconnect p5 in
            engine (RPI.ShaderReloadBus_Connect (RPI.asset_id shaderAsset)) p6
        end
  end.

(** The constructor: base class, then [m_passDescriptor], then the body. *)
Definition FullscreenTrianglePass (descriptor : RPI.PassDescriptor) : t :=
  LoadShader (RenderPass_ctor descriptor).

Definition Create (descriptor : RPI.PassDescriptor) : t :=
  FullscreenTrianglePass descriptor.

Definition BuildDrawItem (p : t) : t :=
  let p1 := pso_call RPI.Pso_SetOutputFromPass p in
  (* No streams required *)
  let inputStreamLayout :=
    RHI.Finalize (RHI.SetTopology RHI.TriangleList RHI.InputStreamLayout_default) in
  let p2 := pso_call (RPI.Pso_SetInputStreamLayout inputStreamLayout) p1 in
  let draw := RHI.set_vertexCount 3 RHI.DrawLinear_default in
  let p3 := set_item (item_set_arguments (RHI.Linear draw) (m_item p2)) p2 in
  let finalized := RPI.PipelineStateForDraw_Finalize host (m_pipelineStateForDraw p3) in
  let p4 := pso_call RPI.Pso_Finalize p3 in
  let p5 := set_item (item_set_pipelineState finalized (m_item p4)) p4 in
  set_item (item_set_stencilRef (Num.uint32_to_uint8 (m_stencilRef p5)) (m_item p5)) p5.

Definition UpdateShaderOptions (shaderOptions : RPI.ShaderOptionList) (p : t) : t :=
  match m_shader p with
  | Some shader =>
      let p1 := pso_call (RPI.Pso_Init shader (Some shaderOptions)) p in
      let p2 := pso_call (RPI.Pso_UpdateSrgVariantFallback (m_shaderResourceGroup p1)) p1 in
      BuildDrawItem p2
  | None => p
  end.

Definition InitializeInternal (p : t) : t :=
  let p1 := engine RPI.RenderPass_InitializeInternal p in
  match m_shader p1 with
  | None => engine (RPI.AZ_Error "PassSystem" msg_not_loaded []) p1
  | Some _ => BuildDrawItem p1
  end.

(** The attachment picked by [FrameBeginInternal]; the pointer is null
    when there is no binding or the binding has no attachment. *)
Definition outputAttachment (p : t) : option RPI.PassAttachment :=
  match m_outputBindings p with
  | b :: _ => b
  | [] =>
      match m_inputOutputBindings p with
      | b :: _ => b
      | [] => None
      end
  end.

(** [None] stands for undefined behaviour: a null [outputAttachment] is
    dereferenced, or a viewport bound does not convert to [uint32_t]. *)
Definition FrameBeginInternal (params : RPI.FramePrepareParams) (p : t) : option t :=
  match outputAttachment p with
  | None => None
  | Some attachment =>
      let targetImageSize := RPI.att_image_size attachment in
      let pv := RPI.m_viewportState params in
      let ps := RPI.m_scissorState params in
      match Num.float_to_uint32 (RHI.vp_maxX pv), Num.float_to_uint32 (RHI.vp_maxY pv) with
      | Some umaxX, Some umaxY =>
          let v1 := vp_set_maxX
                      (Num.uint32_to_float (Num.min_u32 umaxX (RHI.m_width targetImageSize)))
                      (m_viewportState p) in
          let v2 := vp_set_maxY
                      (Num.uint32_to_float (Num.min_u32 umaxY (RHI.m_height targetImageSize)))
                      v1 in
          let v3 := vp_set_minX (Num.min_float (RHI.vp_minX pv) (RHI.vp_maxX v2)) v2 in
          let v4 := vp_set_minY (Num.min_float (RHI.vp_minY pv) (RHI.vp_maxY v3)) v3 in
          let s1 := sc_set_maxX
                      (Num.uint32_to_int32
                         (Num.min_u32 (Num.int32_to_uint32 (RHI.sc_maxX ps))
                                      (RHI.m_width targetImageSize)))
                      (m_scissorState p) in
          let s2 := sc_set_maxY
                      (Num.uint32_to_int32
                         (Num.min_u32 (Num.int32_to_uint32 (RHI.sc_maxY ps))
                                      (RHI.m_height targetImageSize)))
                      s1 in
          let s3 := sc_set_minX (Num.min_i32 (RHI.sc_minX ps) (RHI.sc_maxX s2)) s2 in
          let s4 := sc_set_minY (Num.min_i32 (RHI.sc_minY ps) (RHI.sc_maxY s3)) s3 in
          Some (engine (RPI.RenderPass_FrameBeginInternal params)
                  (set_scissorState s4 (set_viewportState v4 p)))
      | _, _ => None
      end
  end.

(* Scope producer functions *)

Definition SetupFrameGraphDependencies (frameGraph : RHI.FrameGraphScope) : RHI.FrameGraphScope :=
  let afterBase :=
    {| RHI.fg_renderPassDeclared := true;
       RHI.fg_estimatedItemCount := RHI.fg_estimatedItemCount frameGraph |} in
  {| RHI.fg_renderPassDeclared := RHI.fg_renderPassDeclared afterBase;
     RHI.fg_estimatedItemCount := 1 |}.

Definition CompileResources (p : t) : t :=
  let p1 :=
    match m_shaderResourceGroup p with
    | Some srg => engine (RPI.Srg_Compile srg) (engine (RPI.BindPassSrg srg) p)
    | None => p
    end in
  match m_drawShaderResourceGroup p1 with
  | Some srg => engine (RPI.BindSrg srg) (engine (RPI.Srg_Compile srg) p1)
  | None => p1
  end.

Definition BuildCommandListInternal (p : t) (commandList : RHI.CommandList) : RHI.CommandList :=
  commandList ++
    [ RHI.SetShaderResourceGroupsForDraw;
      RHI.SetViewport (m_viewportState p);
      RHI.SetScissor (m_scissorState p);
      RHI.Submit (m_item p) ].

End Members.

End FullscreenTrianglePass.

(* ================================================================== *)
(** ** The pass driven by the frame scheduler

    The pass system and the frame graph call the pass back; each callback
    comes with the engine's answers at that moment. *)

Module PassLife.
Import FullscreenTrianglePass.

Record World := {
  pass : FullscreenTrianglePass.t;
  commandList : RHI.CommandList;
  frameGraph : RHI.FrameGraphScope
}.

Inductive Callback :=
| OnShaderReinitialized
| OnShaderAssetReinitialized
| UpdateShaderOptions (shaderOptions : RPI.ShaderOptionList)
| InitializeInternal
| AttachBindings (outs inouts : list (option RPI.PassAttachment))
| FrameBeginInternal (params : RPI.FramePrepareParams)
| SetupFrameGraphDependencies
| CompileResources
| BuildCommandListInternal.

Definition with_pass (p : FullscreenTrianglePass.t) (w : World) : World :=
  {| pass := p; commandList := commandList w; frameGraph := frameGraph w |}.

Definition invoke (host : RPI.Host) (cb : Callback) (w : World) : option World :=
  match cb with
  | OnShaderReinitialized =>
      Some (with_pass (FullscreenTrianglePass.OnShaderReinitialized host (pass w)) w)
  | OnShaderAssetReinitialized =>
      Some (with_pass (FullscreenTrianglePass.OnShaderAssetReinitialized host (pass w)) w)
  | UpdateShaderOptions o =>
      Some (with_pass (FullscreenTrianglePass.UpdateShaderOptions host o (pass w)) w)
  | InitializeInternal =>
      Some (with_pass (FullscreenTrianglePass.InitializeInternal host (pass w)) w)
  | AttachBindings outs inouts =>
      Some (with_pass (set_bindings outs inouts (pass w)) w)
  | FrameBeginInternal params =>
      match FullscreenTrianglePass.FrameBeginInternal params (pass w) with
      | Some p' => Some (with_pass p' w)
      | None => None
      end
  | SetupFrameGraphDependencies =>
      Some {| pass := pass w; commandList := commandList w;
              frameGraph := FullscreenTrianglePass.SetupFrameGraphDependencies (frameGraph w) |}
  | CompileResources =>
      Some (with_pass (FullscreenTrianglePass.CompileResources (pass w)) w)
  | BuildCommandListInternal =>
      Some {| pass := pass w;
              commandList := FullscreenTrianglePass.BuildCommandListInternal (pass w) (commandList w);
              frameGraph := frameGraph w |}
  end.

Fixpoint run (cbs : list (RPI.Host * Callback)) (w : World) : option World :=
  match cbs with
  | [] => Some w
  | (host, cb) :: rest =>
      match invoke host cb w with
      | Some w' => run rest w'
      | None => None
      end
  end.

(** A freshly created pass with an empty command list. *)
Definition created (host : RPI.Host) (descriptor : RPI.PassDescriptor) : World :=
  {| pass := FullscreenTrianglePass.Create host descriptor;
     commandList := [];
     frameGraph := {| RHI.fg_renderPassDeclared := false; RHI.fg_estimatedItemCount := 0 |} |}.

Definition is_BuildCommandListInternal (cb : Callback) : bool :=
  match cb with BuildCommandListInternal => true | _ => false end.

Definition is_FrameBeginInternal (cb : Callback) : bool :=
  match cb with FrameBeginInternal _ => true | _ => false end.

(** How many times the frame graph executes the pass in a run. *)
Definition executions (cbs : list (RPI.Host * Callback)) : nat :=
  List.length (filter (fun hc => is_BuildCommandListInternal (snd hc)) cbs).

Definition frame_begin_free (cbs : list (RPI.Host * Callback)) : bool :=
  forallb (fun hc => negb (is_FrameBeginInternal (snd hc))) cbs.

(** The draw items submitted to a command list. *)
Definition submitted (cl : RHI.CommandList) : list RHI.DrawItem :=
  flat_map (fun c => match c with RHI.Submit i => [i] | _ => [] end) cl.

End PassLife.

(* ================================================================== *)
(** ** GraphDocumentView *)

Module GraphDocumentView.

Definition Uuid : Type := N.
Definition Crc32 : Type := N.

(** [GraphCanvas::GraphId] and [GraphCanvas::ViewId] are entity ids; a
    default-constructed one is the invalid id. *)
Definition EntityId : Type := N.
Definition InvalidEntityId : EntityId := 4294967295%N.
Definition GraphId : Type := EntityId.
Definition ViewId : Type := EntityId.
Definition GraphId_default : GraphId := InvalidEntityId.
Definition ViewId_default : ViewId := InvalidEntityId.
Definition IsValid (id : EntityId) : bool := negb (N.eqb id InvalidEntityId).

(** What the view does to the widgets and buses around it. *)
Inductive CanvasCall :=
| NotificationBus_Connect (toolId : Crc32)
| SetActiveGraphId (activeGraphId : GraphId) (notify : bool)
| ShowEntireGraph (viewId : ViewId).

Definition is_ShowEntireGraph (c : CanvasCall) : bool :=
  match c with ShowEntireGraph _ => true | _ => false end.

(** The answers of the request buses at the time of a notification; a
    bus without a handler at the address leaves the result untouched. *)
Record Buses := {
  GetGraphId : Uuid -> option GraphId;
  GetViewId : GraphId -> option ViewId
}.

Definition EventResult {A : Type} (result : A) (answer : option A) : A :=
  match answer with Some a => a | None => result end.

Record t := {
  m_toolId : Crc32;
  m_documentId : Uuid;
  m_openedBefore : bool;
  m_activeGraphId : GraphId
}.

Definition set_openedBefore (b : bool) (v : t) : t :=
  {| m_toolId := m_toolId v; m_documentId := m_documentId v;
     m_openedBefore := b; m_activeGraphId := m_activeGraphId v |}.

(** [GraphView::SetActiveGraphId] of the base class: the canvas shows
    the given graph from now on. *)
Definition base_SetActiveGraphId (g : GraphId) (notify : bool) (v : t) : t * list CanvasCall :=
  ({| m_toolId := m_toolId v; m_documentId := m_documentId v;
      m_openedBefore := m_openedBefore v; m_activeGraphId := g |},
   [SetActiveGraphId g notify]).

Definition OnDocumentOpened (buses : Buses) (documentId : Uuid) (v : t) : t * list CanvasCall :=
  if N.eqb (m_documentId v) documentId then
    let activeGraphId := EventResult GraphId_default (GetGraphId buses (m_documentId v)) in
    let '(v1, c1) := base_SetActiveGraphId activeGraphId true v in
    (* Show the entire graph and center the view the first time a graph is opened *)
    if negb (m_openedBefore v1) && IsValid activeGraphId then
      let viewId := EventResult ViewId_default (GetViewId buses activeGraphId) in
      (set_openedBefore true v1, c1 ++ [ShowEntireGraph viewId])
    else (v1, c1)
  else base_SetActiveGraphId GraphId_default false v.

Definition OnDocumentClosed (documentId : Uuid) (v : t) : t * list CanvasCall :=
  if N.eqb (m_documentId v) documentId
  then base_SetActiveGraphId GraphId_default true v
  else (v, []).

Definition OnDocumentDestroyed (documentId : Uuid) (v : t) : t * list CanvasCall :=
  if N.eqb (m_documentId v) documentId
  then base_SetActiveGraphId GraphId_default true v
  else (v, []).

(** The constructor: the base [GraphView] starts on the default graph
    id, [m_openedBefore] starts false. *)
Definition GraphDocumentView (buses : Buses) (toolId : Crc32) (documentId : Uuid)
  : t * list CanvasCall :=
  let v0 := {| m_toolId := toolId; m_documentId := documentId;
               m_openedBefore := false; m_activeGraphId := GraphId_default |} in
  let c0 := [NotificationBus_Connect (m_toolId v0)] in
  let '(v1, c1) := OnDocumentOpened buses (m_documentId v0) v0 in
  (set_openedBefore false v1, c0 ++ c1).

(** Notifications of the document bus, and their delivery in order.  Each
    step records the view after the notification and the calls it made. *)
Inductive Notification :=
| DocumentOpened (documentId : Uuid)
| DocumentClosed (documentId : Uuid)
| DocumentDestroyed (documentId : Uuid).

Definition handle (buses : Buses) (n : Notification) (v : t) : t * list CanvasCall :=
  match n with
  | DocumentOpened d => OnDocumentOpened buses d v
  | DocumentClosed d => OnDocumentClosed d v
  | DocumentDestroyed d => OnDocumentDestroyed d v
  end.

Fixpoint deliver (ns : list (Buses * Notification)) (v : t) : list (t * list CanvasCall) :=
  match ns with
  | [] => []
  | (buses, n) :: rest =>
      let r := handle buses n v in
      r :: deliver rest (fst r)
  end.

(** A run of "document opened" notifications for the tracked document. *)
Definition opens_of (v : t) (bs : list Buses) : list (Buses * Notification) :=
  map (fun b => (b, DocumentOpened (m_documentId v))) bs.

(** The graph id the document answers with. *)
Definition fetched (buses : Buses) (v : t) : GraphId :=
  EventResult GraphId_default (GetGraphId buses (m_documentId v)).

Definition centered (calls : list CanvasCall) : bool :=
  existsb is_ShowEntireGraph calls.

(** None of the given answers names a valid graph for document [d]. *)
Definition all_invalid (d : Uuid) (bs : list Buses) : bool :=
  forallb (fun b => negb (IsValid (EventResult GraphId_default (GetGraphId b d)))) bs.

(** Example buses and an example view. *)
Definition buses_graph_7 : Buses :=
  {| GetGraphId := fun _ => Some 7%N; GetViewId := fun _ => Some 70%N |}.
Definition buses_silent : Buses :=
  {| GetGraphId := fun _ => None; GetViewId := fun _ => None |}.
Definition view_of_document_5 : t :=
  fst (GraphDocumentView buses_silent 1%N 5%N).

End GraphDocumentView.


(* ================================================================== *)
(** * The claims read off the specification, in its own words *)

Module Spec.
Import FullscreenTrianglePass.

(** "maxX is the minimum of the incoming maxX and the image width, maxY
    the minimum of the incoming maxY and the image height, minX (minY) the
    minimum of the incoming minX (minY) and the clamped maxX (maxY)". *)
Definition clamped_scissor (incoming : RHI.Scissor) (size : RHI.Size) : RHI.Scissor :=
  let maxX := Z.min (RHI.sc_maxX incoming) (RHI.m_width size) in
  let maxY := Z.min (RHI.sc_maxY incoming) (RHI.m_height size) in
  {| RHI.sc_minX := Z.min (RHI.sc_minX incoming) maxX;
     RHI.sc_minY := Z.min (RHI.sc_minY incoming) maxY;
     RHI.sc_maxX := maxX; RHI.sc_maxY := maxY |}.

Definition clamped_viewport_maxX (incoming : RHI.Viewport) (size : RHI.Size) : Num.float :=
  Num.min_float (RHI.vp_maxX incoming) (Num.uint32_to_float (RHI.m_width size)).

Definition clamped_viewport_maxY (incoming : RHI.Viewport) (size : RHI.Size) : Num.float :=
  Num.min_float (RHI.vp_maxY incoming) (Num.uint32_to_float (RHI.m_height size)).

(** "minX <= maxX and minY <= maxY" for both rectangles. *)
Definition viewport_ordered (v : RHI.Viewport) : bool :=
  Num.float_leb (RHI.vp_minX v) (RHI.vp_maxX v) &&
  Num.float_leb (RHI.vp_minY v) (RHI.vp_maxY v).

Definition scissor_ordered (s : RHI.Scissor) : bool :=
  (RHI.sc_minX s <=? RHI.sc_maxX s) && (RHI.sc_minY s <=? RHI.sc_maxY s).

(** "a missing or invalid configuration/shader/asset": the three ways in
    which the shader reference of a descriptor does not resolve. *)
Definition resolution_fails (host : RPI.Host) (descriptor : RPI.PassDescriptor) : bool :=
  match RPI.GetPassData descriptor with
  | None => true
  | Some passData =>
      let ref := RPI.m_shaderAsset passData in
      if RPI.AssetId_IsValid (RPI.m_assetId ref) then
        let asset := RPI.FindShaderAsset host (RPI.m_assetId ref) (RPI.m_filePath ref) in
        if RPI.AssetId_IsValid (RPI.asset_id asset) then
          match RPI.Shader_FindOrCreate host asset with
          | None => true
          | Some _ => false
          end
        else true
      else true
  end.

(** "leaves the feature inert": nothing was loaded or built. *)
Definition inert (p : FullscreenTrianglePass.t) : Prop :=
  m_shader p = None /\
  m_pipelineStateForDraw p = [] /\
  m_shaderResourceGroup p = None /\
  m_drawShaderResourceGroup p = None /\
  m_item p = RHI.DrawItem_default.

(** "re-derives its resource-group bindings: recreates the pass SRG from
    the shader's Pass binding slot layout, re-binds the descriptor's data
    mappings, recreates the default draw SRG, updates the pipeline
    state's SRG variant fallback". *)
Definition rederives_all (host : RPI.Host) (p p' : FullscreenTrianglePass.t) : Prop :=
  exists shader layout,
    m_shader p = Some shader /\
    RPI.Shader_FindShaderResourceGroupLayout host shader RPI.Slot_Pass = Some layout /\
    m_shaderResourceGroup p' =
      RPI.ShaderResourceGroup_Create host (RPI.Shader_GetAsset host shader)
        (RPI.Shader_GetSupervariantIndex host shader) (RPI.layout_name layout) /\
    m_engineLog p' =
      m_engineLog p ++ [RPI.BindDataMappingsToSrg (m_passDescriptor p) (m_shaderResourceGroup p')] /\
    m_drawShaderResourceGroup p' = RPI.Shader_CreateDefaultDrawSrg host shader false /\
    m_pipelineStateForDraw p' =
      m_pipelineStateForDraw p ++ [RPI.Pso_UpdateSrgVariantFallback (m_shaderResourceGroup p')].

(** The draw item described by the specification: three vertices, drawn
    linearly, one instance. *)
Definition fullscreen_triangle_draw : RHI.DrawArguments :=
  RHI.Linear {| RHI.m_instanceCount := 1; RHI.m_instanceOffset := 0;
                RHI.m_vertexCount := 3; RHI.m_vertexOffset := 0 |}.

Definition no_geometry (i : RHI.DrawItem) : Prop :=
  RHI.m_indexBufferView i = None /\ RHI.m_streamBufferViews i = [].

Definition triangle_list_without_streams : RHI.InputStreamLayout :=
  {| RHI.m_topology := RHI.TriangleList; RHI.m_streamChannels := [];
     RHI.m_streamBuffers := []; RHI.m_finalized := true |}.

End Spec.

(* ================================================================== *)
(** * Concrete engines, descriptors and frames used as examples *)

Module Examples.
Import FullscreenTrianglePass.

Definition goodAssetId : RPI.AssetId := {| RPI.m_guid := 42%N; RPI.m_subId := 0%N |}.

Definition goodAsset : RPI.ShaderAssetHandle :=
  {| RPI.asset_id := goodAssetId; RPI.asset_data := Some 1%N |}.

(** An engine in which every valid asset id resolves to shader 1, whose
    Pass slot has a layout named "PassSrg". *)
Definition host_ok : RPI.Host :=
  {| RPI.FindShaderAsset := fun id _ => {| RPI.asset_id := id; RPI.asset_data := Some 1%N |};
     RPI.Shader_FindOrCreate := fun _ => Some 1%N;
     RPI.Shader_FindShaderResourceGroupLayout :=
       fun _ slot => match slot with
                     | RPI.Slot_Pass => Some {| RPI.layout_name := "PassSrg" |}
                     | _ => None
                     end;
     RPI.Shader_GetAsset := fun _ => goodAsset;
     RPI.Shader_GetSupervariantIndex := fun _ => 0;
     RPI.ShaderResourceGroup_Create := fun _ _ _ => Some 10%N;
     RPI.Shader_CreateDefaultDrawSrg := fun _ _ => Some 11%N;
     RPI.PipelineStateForDraw_Finalize := fun _ => Some 100%N |}.

(** The same engine, but its shader declares no Pass-slot layout. *)
Definition host_no_pass_srg : RPI.Host :=
  {| RPI.FindShaderAsset := RPI.FindShaderAsset host_ok;
     RPI.Shader_FindOrCreate := RPI.Shader_FindOrCreate host_ok;
     RPI.Shader_FindShaderResourceGroupLayout := fun _ _ => None;
     RPI.Shader_GetAsset := RPI.Shader_GetAsset host_ok;
     RPI.Shader_GetSupervariantIndex := RPI.Shader_GetSupervariantIndex host_ok;
     RPI.ShaderResourceGroup_Create := RPI.ShaderResourceGroup_Create host_ok;
     RPI.Shader_CreateDefaultDrawSrg := RPI.Shader_CreateDefaultDrawSrg host_ok;
     RPI.PipelineStateForDraw_Finalize := RPI.PipelineStateForDraw_Finalize host_ok |}.

(** An engine that locates the asset but cannot create the shader. *)
Definition host_no_shader : RPI.Host :=
  {| RPI.FindShaderAsset := RPI.FindShaderAsset host_ok;
     RPI.Shader_FindOrCreate := fun _ => None;
     RPI.Shader_FindShaderResourceGroupLayout := RPI.Shader_FindShaderResourceGroupLayout host_ok;
     RPI.Shader_GetAsset := RPI.Shader_GetAsset host_ok;
     RPI.Shader_GetSupervariantIndex := RPI.Shader_GetSupervariantIndex host_ok;
     RPI.ShaderResourceGroup_Create := RPI.ShaderResourceGroup_Create host_ok;
     RPI.Shader_CreateDefaultDrawSrg := RPI.Shader_CreateDefaultDrawSrg host_ok;
     RPI.PipelineStateForDraw_Finalize := RPI.PipelineStateForDraw_Finalize host_ok |}.

Definition descriptor_ok : RPI.PassDescriptor :=
  {| RPI.m_passName := "Blit";
     RPI.m_passData :=
       Some (RPI.PassData_FullscreenTriangle
               {| RPI.m_shaderAsset :=
                    {| RPI.m_assetId := goodAssetId; RPI.m_filePath := "Shaders/Blit.shader" |};
                  RPI.m_stencilRef := 1 |}) |}.

Definition descriptor_without_data : RPI.PassDescriptor :=
  {| RPI.m_passName := "Blit"; RPI.m_passData := None |}.

Definition image_1920_1080 : RPI.PassAttachment :=
  {| RPI.att_type := RHI.Image;
     RPI.att_image_size := {| RHI.m_width := 1920; RHI.m_height := 1080; RHI.m_depth := 1 |} |}.

(** binary32 constants: 2.0, 1280.0, 720.0 *)
Definition f32_2 : Num.float := S754_finite false 8388608 (-22).
Definition f32_1280 : Num.float := S754_finite false 10485760 (-13).
Definition f32_720 : Num.float := S754_finite false 11796480 (-14).

Definition scissor_1280_720 : RHI.Scissor :=
  {| RHI.sc_minX := 0; RHI.sc_minY := 0; RHI.sc_maxX := 1280; RHI.sc_maxY := 720 |}.

(** A 1280x720 frame rectangle. *)
Definition params_1280_720 : RPI.FramePrepareParams :=
  {| RPI.m_viewportState :=
       {| RHI.vp_minX := Num.f32_0; RHI.vp_maxX := f32_1280;
          RHI.vp_minY := Num.f32_0; RHI.vp_maxY := f32_720;
          RHI.vp_minZ := Num.f32_0; RHI.vp_maxZ := Num.f32_1 |};
     RPI.m_scissorState := scissor_1280_720 |}.

(** A viewport whose maxima are 1.5: a fractional extent. *)
Definition params_fractional : RPI.FramePrepareParams :=
  {| RPI.m_viewportState :=
       {| RHI.vp_minX := Num.f32_0; RHI.vp_maxX := Num.f32_1_5;
          RHI.vp_minY := Num.f32_0; RHI.vp_maxY := Num.f32_1_5;
          RHI.vp_minZ := Num.f32_0; RHI.vp_maxZ := Num.f32_1 |};
     RPI.m_scissorState := scissor_1280_720 |}.

(** A viewport whose minX is NaN. *)
Definition params_nan_min : RPI.FramePrepareParams :=
  {| RPI.m_viewportState :=
       {| RHI.vp_minX := S754_nan; RHI.vp_maxX := f32_1280;
          RHI.vp_minY := Num.f32_0; RHI.vp_maxY := f32_720;
          RHI.vp_minZ := Num.f32_0; RHI.vp_maxZ := Num.f32_1 |};
     RPI.m_scissorState := scissor_1280_720 |}.

(** A viewport lying left of the origin: maxX is -2.0. *)
Definition params_negative_max : RPI.FramePrepareParams :=
  {| RPI.m_viewportState :=
       {| RHI.vp_minX := S754_finite true 8388608 (-21);
          RHI.vp_maxX := S754_finite true 8388608 (-22);
          RHI.vp_minY := Num.f32_0; RHI.vp_maxY := f32_720;
          RHI.vp_minZ := Num.f32_0; RHI.vp_maxZ := Num.f32_1 |};
     RPI.m_scissorState := scissor_1280_720 |}.

(** A scissor rectangle with negative maxima. *)
Definition params_negative_scissor : RPI.FramePrepareParams :=
  {| RPI.m_viewportState :=
       {| RHI.vp_minX := Num.f32_0; RHI.vp_maxX := f32_1280;
          RHI.vp_minY := Num.f32_0; RHI.vp_maxY := f32_720;
          RHI.vp_minZ := Num.f32_0; RHI.vp_maxZ := Num.f32_1 |};
     RPI.m_scissorState :=
       {| RHI.sc_minX := -10; RHI.sc_minY := -10; RHI.sc_maxX := -1; RHI.sc_maxY := -1 |} |}.

(** A loaded pass bound to a 1920x1080 output image. *)
Definition pass_on_1080p : FullscreenTrianglePass.t :=
  set_bindings [Some image_1920_1080] [] (Create host_ok descriptor_ok).

(** The world after creating and initialising a pass on [host_ok]. *)
Definition world_initialized : PassLife.World :=
  PassLife.with_pass
    (InitializeInternal host_ok (Create host_ok descriptor_ok))
    (PassLife.created host_ok descriptor_ok).

End Examples.

(* ================================================================== *)
(** ** The rest of the pass's life: destruction, and what the log tells *)

Module Lifetime.
Import FullscreenTrianglePass.

(** [~FullscreenTrianglePass()] *)
Definition Destroy (p : t) : t := engine RPI.ShaderReloadBus_Disconnect p.

(** The address at which the pass listens on the shader reload bus after
    a sequence of engine calls: the last connect not followed by a
    disconnect. *)
Fixpoint busConnection_from (start : option RPI.AssetId) (log : list RPI.EngineCall)
  : option RPI.AssetId :=
  match log with
  | [] => start
  | RPI.ShaderReloadBus_Connect id :: rest => busConnection_from (Some id) rest
  | RPI.ShaderReloadBus_Disconnect :: rest => busConnection_from None rest
  | _ :: rest => busConnection_from start rest
  end.

Definition busConnection (p : t) : option RPI.AssetId :=
  busConnection_from None (m_engineLog p).

Definition is_bus_call (c : RPI.EngineCall) : bool :=
  match c with
  | RPI.ShaderReloadBus_Connect _ | RPI.ShaderReloadBus_Disconnect => true
  | _ => false
  end.

Definition is_error (c : RPI.EngineCall) : bool :=
  match c with RPI.AZ_Error _ _ _ => true | _ => false end.

Definition errors (p : t) : nat := List.length (filter is_error (m_engineLog p)).

Definition queued (p : t) : nat :=
  List.length (filter RPI.is_QueueForInitialization (m_engineLog p)).

Definition is_InitializeInternal (cb : PassLife.Callback) : bool :=
  match cb with PassLife.InitializeInternal => true | _ => false end.

(** How many times the pass system initialises the pass in a run. *)
Definition initializations (cbs : list (RPI.Host * PassLife.Callback)) : nat :=
  List.length (filter (fun hc => is_InitializeInternal (snd hc)) cbs).

Definition is_Init (c : RPI.PsoCall) : bool :=
  match c with RPI.Pso_Init _ _ => true | _ => false end.

(** The draw item as [BuildDrawItem] leaves it on a pass that never had
    geometry: three vertices, the stencil reference cut to eight bits. *)
Definition built_item (stencilRef : Z) (pipelineState : option RHI.PipelineStatePtr)
  : RHI.DrawItem :=
  {| RHI.m_arguments := Spec.fullscreen_triangle_draw;
     RHI.m_stencilRef := stencilRef mod 2 ^ 8;
     RHI.m_pipelineState := pipelineState;
     RHI.m_indexBufferView := None;
     RHI.m_streamBufferViews := [] |}.

Definition default_or_built (stencilRef : Z) (i : RHI.DrawItem) : Prop :=
  i = RHI.DrawItem_default \/ exists pipelineState, i = built_item stencilRef pipelineState.


(** The rectangles of a pass, handed on as the parameters of a frame. *)
Definition rectangles_as_params (p : t) : RPI.FramePrepareParams :=
  {| RPI.m_viewportState := m_viewportState p; RPI.m_scissorState := m_scissorState p |}.

(** An engine whose shader has a Pass-slot layout but which fails to
    create the shader resource group for it. *)
Definition host_srg_fails : RPI.Host :=
  {| RPI.FindShaderAsset := RPI.FindShaderAsset Examples.host_ok;
     RPI.Shader_FindOrCreate := RPI.Shader_FindOrCreate Examples.host_ok;
     RPI.Shader_FindShaderResourceGroupLayout :=
       RPI.Shader_FindShaderResourceGroupLayout Examples.host_ok;
     RPI.Shader_GetAsset := RPI.Shader_GetAsset Examples.host_ok;
     RPI.Shader_GetSupervariantIndex := RPI.Shader_GetSupervariantIndex Examples.host_ok;
     RPI.ShaderResourceGroup_Create := fun _ _ _ => None;
     RPI.Shader_CreateDefaultDrawSrg := RPI.Shader_CreateDefaultDrawSrg Examples.host_ok;
     RPI.PipelineStateForDraw_Finalize := RPI.PipelineStateForDraw_Finalize Examples.host_ok |}.

(** A descriptor whose stencil reference does not fit eight bits. *)
Definition descriptor_stencil_257 : RPI.PassDescriptor :=
  {| RPI.m_passName := "Blit";
     RPI.m_passData :=
       Some (RPI.PassData_FullscreenTriangle
               {| RPI.m_shaderAsset :=
                    {| RPI.m_assetId := Examples.goodAssetId;
                       RPI.m_filePath := "Shaders/Blit.shader" |};
                  RPI.m_stencilRef := 257 |}) |}.

(** A frame of one created pass: initialise, attach a 1920x1080 image,
    begin the frame, compile, execute. *)
Definition one_frame : list (RPI.Host * PassLife.Callback) :=
  [ (Examples.host_ok, PassLife.InitializeInternal);
    (Examples.host_ok, PassLife.AttachBindings [Some Examples.image_1920_1080] []);
    (Examples.host_ok, PassLife.FrameBeginInternal Examples.params_1280_720);
    (Examples.host_ok, PassLife.SetupFrameGraphDependencies);
    (Examples.host_ok, PassLife.CompileResources);
    (Examples.host_ok, PassLife.BuildCommandListInternal) ].

(** The members that only [LoadShader] writes are the same in two states. *)
Record same_core (p p' : t) : Prop := {
  core_shader : m_shader p' = m_shader p;
  core_stencil : m_stencilRef p' = m_stencilRef p;
  core_descriptor : m_passDescriptor p' = m_passDescriptor p
}.

(** The calls on the pipeline state helper begin with the [Init] of the
    loaded shader; without a shader there are none. *)
Definition initialized_first (p : t) : Prop :=
  match m_shader p with
  | None => m_pipelineStateForDraw p = []
  | Some shader => exists rest, m_pipelineStateForDraw p = RPI.Pso_Init shader None :: rest
  end.

(** A list of shader options. *)
Definition options_high : RPI.ShaderOptionList := [("o_quality"%string, "high"%string)].

End Lifetime.

(* ================================================================== *)
(** ** Runs of notifications on a graph document view *)

Module ViewLife.
Import GraphDocumentView.

(** How many notifications of a delivery centered the view. *)
Definition centerings (steps : list (t * list CanvasCall)) : nat :=
  List.length (filter (fun r => centered (snd r)) steps).

(** The view after a delivery. *)
Definition final (v : t) (steps : list (t * list CanvasCall)) : t :=
  last (map fst steps) v.

(** Buses on which the document answers with graph 7 but no scene answers
    for the view id. *)
Definition buses_without_scene : Buses :=
  {| GetGraphId := fun _ => Some 7%N; GetViewId := fun _ => None |}.

(** A mixed run of notifications around document 5. *)
Definition mixed_run : list (Buses * Notification) :=
  [ (buses_graph_7, DocumentOpened 6%N);
    (buses_graph_7, DocumentOpened 5%N);
    (buses_graph_7, DocumentClosed 5%N);
    (buses_graph_7, DocumentOpened 5%N);
    (buses_silent, DocumentDestroyed 5%N) ].

End ViewLife.

(* ================================================================== *)
(** * Facts about the machine numbers *)

Module NumFacts.
Import Num.

Lemma min_u32_Zmin (a b : Z) : min_u32 a b = Z.min a b.
Proof.
  unfold min_u32, AZStd_min. rewrite Z.gtb_ltb.
  destruct (Z.ltb_spec b a); lia.
Qed.

Lemma min_i32_Zmin (a b : Z) : min_i32 a b = Z.min a b.
Proof. apply min_u32_Zmin. Qed.

Lemma int32_to_uint32_range (i : Z) : is_uint32 (int32_to_uint32 i).
Proof. unfold is_uint32, int32_to_uint32. apply Z.mod_pos_bound. lia. Qed.

Lemma int32_to_uint32_nonneg (i : Z) :
  0 <= i -> is_int32 i -> int32_to_uint32 i = i.
Proof.
  unfold is_int32, int32_to_uint32. intros H0 H. apply Z.mod_small. lia.
Qed.

Lemma int32_to_uint32_neg (i : Z) :
  i < 0 -> is_int32 i -> int32_to_uint32 i = i + 2 ^ 32.
Proof.
  unfold is_int32, int32_to_uint32. intros H0 H.
  symmetry. apply Z.mod_unique with (q := -1); lia.
Qed.

Lemma uint32_to_int32_range (u : Z) : is_uint32 u -> is_int32 (uint32_to_int32 u).
Proof.
  unfold is_uint32, is_int32, uint32_to_int32. intros H.
  destruct (Z.ltb_spec u (2 ^ 31)); lia.
Qed.

Lemma uint32_to_int32_small (u : Z) : u < 2 ^ 31 -> uint32_to_int32 u = u.
Proof.
  unfold uint32_to_int32. intros H. destruct (Z.ltb_spec u (2 ^ 31)); lia.
Qed.

(** The binary32 constants are what the conversions produce. *)
Example uint32_to_float_1280 : uint32_to_float 1280 = Examples.f32_1280.
Proof. reflexivity. Qed.

Example float_to_uint32_truncates : float_to_uint32 f32_1_5 = Some 1.
Proof. reflexivity. Qed.

Example float_constants_valid :
  forallb float_valid [f32_0; f32_1; f32_1_5; Examples.f32_2; Examples.f32_1280;
                       Examples.f32_720] = true.
Proof. reflexivity. Qed.

Example int32_to_uint32_minus_1 : int32_to_uint32 (-1) = 4294967295.
Proof. reflexivity. Qed.

(** Comparison of floats: reflexive away from NaN, and antisymmetric. *)
Lemma SFcompare_refl (x : float) :
  float_is_nan x = false -> SFcompare x x = Some Eq.
Proof.
  destruct x as [s | s | | s m e]; simpl; intros H; try discriminate.
  - reflexivity.
  - destruct s; reflexivity.
  - rewrite Z.compare_refl.
    change (Pos.compare_cont Eq m m) with (Pos.compare m m).
    rewrite Pos.compare_refl. destruct s; reflexivity.
Qed.

Lemma SFcompare_antisym (a b : float) :
  SFcompare b a = option_map CompOpp (SFcompare a b).
Proof.
  destruct a as [sa | sa | | sa ma ea], b as [sb | sb | | sb mb eb];
    simpl; try reflexivity;
    try (destruct sa; reflexivity); try (destruct sb; reflexivity);
    try (destruct sa, sb; reflexivity).
  rewrite (Z.compare_antisym ea eb).
  change (Pos.compare_cont Eq mb ma) with (Pos.compare mb ma).
  change (Pos.compare_cont Eq ma mb) with (Pos.compare ma mb).
  rewrite (Pos.compare_antisym ma mb).
  destruct sa, sb, (ea ?= eb), (ma ?= mb)%positive; reflexivity.
Qed.

Lemma min_float_le_right (a b : float) :
  float_is_nan a = false -> float_is_nan b = false ->
  float_leb (min_float a b) b = true.
Proof.
  intros Ha Hb. unfold min_float, AZStd_min, float_gtb, float_leb, SFltb, SFleb.
  destruct (SFcompare b a) as [c |] eqn:Hba.
  - destruct c.
    + rewrite SFcompare_antisym, Hba. reflexivity.
    + rewrite (SFcompare_refl b Hb). reflexivity.
    + rewrite SFcompare_antisym, Hba. reflexivity.
  - destruct a, b; simpl in *; try discriminate;
      repeat match goal with s : bool |- _ => destruct s end; discriminate.
Qed.

Lemma min_float_nan_left (b : float) : min_float S754_nan b = S754_nan.
Proof. destruct b; reflexivity. Qed.

(** Rounding an integer never produces NaN. *)
Lemma shr_1_nonneg (mrs : shr_record) : 0 <= shr_m mrs -> 0 <= shr_m (shr_1 mrs).
Proof.
  destruct mrs as [m r s]; simpl. destruct m as [| p | p]; simpl; intros H.
  - lia.
  - destruct p; simpl; lia.
  - lia.
Qed.

Lemma iter_pos_invariant {A : Type} (P : A -> Prop) (f : A -> A) :
  (forall x, P x -> P (f x)) -> forall n x, P x -> P (iter_pos f n x).
Proof.
  intros Hf. induction n as [n IH | n IH |]; simpl; intros x Hx.
  - apply IH, IH, Hf, Hx.
  - apply IH, IH, Hx.
  - apply Hf, Hx.
Qed.

Lemma shr_nonneg (mrs : shr_record) (e n : Z) :
  0 <= shr_m mrs -> 0 <= shr_m (fst (shr mrs e n)).
Proof.
  intros H. unfold shr. destruct n as [| p | p]; simpl; try assumption.
  apply (iter_pos_invariant (fun r => 0 <= shr_m r)); [apply shr_1_nonneg | assumption].
Qed.

Lemma shr_record_of_loc_m (m : Z) (l : location) : shr_m (shr_record_of_loc m l) = m.
Proof. destruct l as [| c]; [reflexivity | destruct c; reflexivity]. Qed.

Lemma shr_fexp_nonneg (prec emax m e : Z) (l : location) :
  0 <= m -> 0 <= shr_m (fst (shr_fexp prec emax m e l)).
Proof.
  intros H. unfold shr_fexp. apply shr_nonneg. rewrite shr_record_of_loc_m. exact H.
Qed.

Lemma round_nearest_even_nonneg (m : Z) (l : location) :
  0 <= m -> 0 <= round_nearest_even m l.
Proof.
  intros H. unfold round_nearest_even.
  destruct l as [| c]; [assumption |].
  destruct c; [destruct (Z.even m) | |]; lia.
Qed.

Lemma binary_round_aux_not_nan (prec emax : Z) (sx : bool) (mx ex : Z) (lx : location) :
  0 <= mx -> float_is_nan (binary_round_aux prec emax sx mx ex lx) = false.
Proof.
  intros H. unfold binary_round_aux.
  pose proof (shr_fexp_nonneg prec emax mx ex lx H) as H1.
  destruct (shr_fexp prec emax mx ex lx) as [mrs' e']. simpl in H1.
  pose proof (shr_fexp_nonneg prec emax _ e' loc_Exact
                (round_nearest_even_nonneg _ (loc_of_shr_record mrs') H1)) as H2.
  destruct (shr_fexp prec emax (round_nearest_even (shr_m mrs') (loc_of_shr_record mrs'))
              e' loc_Exact) as [mrs'' e'']. simpl in H2.
  destruct (shr_m mrs'') as [| p | p].
  - reflexivity.
  - destruct (e'' <=? emax - prec); reflexivity.
  - lia.
Qed.

Lemma uint32_to_float_not_nan (u : Z) : float_is_nan (uint32_to_float u) = false.
Proof.
  unfold uint32_to_float, binary_normalize.
  destruct u as [| p | p]; [reflexivity | |];
    unfold binary_round;
    match goal with |- context [shl_align ?a ?b ?c] => destruct (shl_align a b c) end;
    apply binary_round_aux_not_nan; lia.
Qed.

End NumFacts.

(* ================================================================== *)
(** * FrameBeginInternal: clamping of the frame rectangles *)

Module FrameProofs.
Import FullscreenTrianglePass.

(** The state computed by [FrameBeginInternal] once its conversions are
    defined, field by field. *)
Lemma FrameBeginInternal_defined
  (params : RPI.FramePrepareParams) (p : t) (attachment : RPI.PassAttachment)
  (umaxX umaxY : Z) :
  outputAttachment p = Some attachment ->
  Num.float_to_uint32 (RHI.vp_maxX (RPI.m_viewportState params)) = Some umaxX ->
  Num.float_to_uint32 (RHI.vp_maxY (RPI.m_viewportState params)) = Some umaxY ->
  exists p', FrameBeginInternal params p = Some p' /\
    RHI.vp_maxX (m_viewportState p') =
      Num.uint32_to_float (Z.min umaxX (RHI.m_width (RPI.att_image_size attachment))) /\
    RHI.vp_maxY (m_viewportState p') =
      Num.uint32_to_float (Z.min umaxY (RHI.m_height (RPI.att_image_size attachment))) /\
    RHI.vp_minX (m_viewportState p') =
      Num.min_float (RHI.vp_minX (RPI.m_viewportState params)) (RHI.vp_maxX (m_viewportState p')) /\
    RHI.vp_minY (m_viewportState p') =
      Num.min_float (RHI.vp_minY (RPI.m_viewportState params)) (RHI.vp_maxY (m_viewportState p')) /\
    RHI.sc_maxX (m_scissorState p') =
      Num.uint32_to_int32
        (Z.min (Num.int32_to_uint32 (RHI.sc_maxX (RPI.m_scissorState params)))
               (RHI.m_width (RPI.att_image_size attachment))) /\
    RHI.sc_maxY (m_scissorState p') =
      Num.uint32_to_int32
        (Z.min (Num.int32_to_uint32 (RHI.sc_maxY (RPI.m_scissorState params)))
               (RHI.m_height (RPI.att_image_size attachment))) /\
    RHI.sc_minX (m_scissorState p') =
      Z.min (RHI.sc_minX (RPI.m_scissorState params)) (RHI.sc_maxX (m_scissorState p')) /\
    RHI.sc_minY (m_scissorState p') =
      Z.min (RHI.sc_minY (RPI.m_scissorState params)) (RHI.sc_maxY (m_scissorState p')).
Proof.
  intros Hatt HX HY. unfold FrameBeginInternal. rewrite Hatt, HX, HY.
  eexists. split; [reflexivity |]. cbn.
  rewrite ?NumFacts.min_u32_Zmin, ?NumFacts.min_i32_Zmin.
  repeat split; reflexivity.
Qed.

Lemma clamp_nonneg_scissor_max (m extent : Z) :
  0 <= m < 2 ^ 31 ->
  Num.uint32_to_int32 (Z.min (Num.int32_to_uint32 m) extent) = Z.min m extent.
Proof.
  intros H. rewrite NumFacts.int32_to_uint32_nonneg by (unfold Num.is_int32; lia).
  apply NumFacts.uint32_to_int32_small. lia.
Qed.

(** C2 (as the code has it).  With a bound output image and viewport
    maxima that convert to [uint32_t], [FrameBeginInternal] returns, and
    each maximum is the minimum of the incoming maximum converted to
    [uint32_t] and the image extent, converted back to the field's type;
    each minimum is the minimum of the incoming minimum and the already
    clamped maximum.  For a scissor whose incoming maxima are not
    negative this is the clamp of the specification. *)
Theorem FrameBeginInternal_clamps_to_extent
  (params : RPI.FramePrepareParams) (p : t) (attachment : RPI.PassAttachment)
  (umaxX umaxY : Z) :
  outputAttachment p = Some attachment ->
  Num.float_to_uint32 (RHI.vp_maxX (RPI.m_viewportState params)) = Some umaxX ->
  Num.float_to_uint32 (RHI.vp_maxY (RPI.m_viewportState params)) = Some umaxY ->
  exists p', FrameBeginInternal params p = Some p' /\
    RHI.vp_maxX (m_viewportState p') =
      Num.uint32_to_float (Z.min umaxX (RHI.m_width (RPI.att_image_size attachment))) /\
    RHI.vp_maxY (m_viewportState p') =
      Num.uint32_to_float (Z.min umaxY (RHI.m_height (RPI.att_image_size attachment))) /\
    RHI.vp_minX (m_viewportState p') =
      Num.min_float (RHI.vp_minX (RPI.m_viewportState params)) (RHI.vp_maxX (m_viewportState p')) /\
    RHI.vp_minY (m_viewportState p') =
      Num.min_float (RHI.vp_minY (RPI.m_viewportState params)) (RHI.vp_maxY (m_viewportState p')) /\
    RHI.sc_maxX (m_scissorState p') =
      Num.uint32_to_int32
        (Z.min (Num.int32_to_uint32 (RHI.sc_maxX (RPI.m_scissorState params)))
               (RHI.m_width (RPI.att_image_size attachment))) /\
    RHI.sc_maxY (m_scissorState p') =
      Num.uint32_to_int32
        (Z.min (Num.int32_to_uint32 (RHI.sc_maxY (RPI.m_scissorState params)))
               (RHI.m_height (RPI.att_image_size attachment))) /\
    RHI.sc_minX (m_scissorState p') =
      Z.min (RHI.sc_minX (RPI.m_scissorState params)) (RHI.sc_maxX (m_scissorState p')) /\
    RHI.sc_minY (m_scissorState p') =
      Z.min (RHI.sc_minY (RPI.m_scissorState params)) (RHI.sc_maxY (m_scissorState p')) /\
    (0 <= RHI.sc_maxX (RPI.m_scissorState params) < 2 ^ 31 ->
     0 <= RHI.sc_maxY (RPI.m_scissorState params) < 2 ^ 31 ->
     m_scissorState p' =
       Spec.clamped_scissor (RPI.m_scissorState params) (RPI.att_image_size attachment)).
Proof.
  intros Hatt HX HY.
  destruct (FrameBeginInternal_defined params p attachment umaxX umaxY Hatt HX HY)
    as (p' & Hp' & H1 & H2 & H3 & H4 & H5 & H6 & H7 & H8).
  exists p'. repeat (split; [assumption |]).
  intros HmX HmY.
  rewrite clamp_nonneg_scissor_max in H5, H6 by assumption.
  destruct (m_scissorState p') as [a b c d]. cbn in *.
  unfold Spec.clamped_scissor. subst. reflexivity.
Qed.

Lemma FrameBeginInternal_clamps_to_extent_witness :
  exists p', FrameBeginInternal Examples.params_1280_720 Examples.pass_on_1080p = Some p' /\
    m_scissorState p' = Examples.scissor_1280_720 /\
    RHI.vp_maxX (m_viewportState p') = Examples.f32_1280.
Proof.
  destruct (FrameBeginInternal_clamps_to_extent
              Examples.params_1280_720 Examples.pass_on_1080p Examples.image_1920_1080
              1280 720 eq_refl eq_refl eq_refl)
    as (p' & Hp' & H1 & _ & _ & _ & _ & _ & _ & _ & Hs).
  exists p'. split; [exact Hp' |]. split.
  - rewrite Hs; [reflexivity | cbn; lia | cbn; lia].
  - rewrite H1. reflexivity.
Defined.

(** C2 as written fails: a viewport maximum of 1.5 on a 1920-wide image
    becomes 1.0, while the minimum of 1.5 and 1920 is 1.5. *)
Lemma FrameBeginInternal_truncates_viewport_max :
  exists p', FrameBeginInternal Examples.params_fractional Examples.pass_on_1080p = Some p' /\
    RHI.vp_maxX (m_viewportState p') = Num.f32_1 /\
    Spec.clamped_viewport_maxX (RPI.m_viewportState Examples.params_fractional)
      (RPI.att_image_size Examples.image_1920_1080) = Num.f32_1_5 /\
    RHI.vp_maxX (m_viewportState p') <>
      Spec.clamped_viewport_maxX (RPI.m_viewportState Examples.params_fractional)
        (RPI.att_image_size Examples.image_1920_1080).
Proof.
  eexists. split; [reflexivity |]. split; [reflexivity |]. split; [reflexivity |].
  vm_compute. discriminate.
Qed.

(** A negative scissor maximum wraps to a large unsigned value, so the
    image extent wins: the result is 1920x1080, not the minimum -1. *)
Example FrameBeginInternal_negative_scissor_max :
  option_map m_scissorState
    (FrameBeginInternal Examples.params_negative_scissor Examples.pass_on_1080p) =
  Some {| RHI.sc_minX := -10; RHI.sc_minY := -10; RHI.sc_maxX := 1920; RHI.sc_maxY := 1080 |}.
Proof. vm_compute. reflexivity. Qed.

(** A negative viewport maximum does not convert to [uint32_t]. *)
Example FrameBeginInternal_negative_viewport_max :
  Num.float_to_uint32 (RHI.vp_maxX (RPI.m_viewportState Examples.params_negative_max)) = None /\
  FrameBeginInternal Examples.params_negative_max Examples.pass_on_1080p = None.
Proof. split; vm_compute; reflexivity. Qed.

(** C8 (as the code has it).  With a bound output image and viewport
    maxima that convert to [uint32_t], [FrameBeginInternal] returns a
    state whose scissor satisfies minX <= maxX and minY <= maxY, and whose
    viewport satisfies them too when the incoming viewport minima are
    not NaN. *)
Theorem FrameBeginInternal_orders_rectangles
  (params : RPI.FramePrepareParams) (p : t) (attachment : RPI.PassAttachment)
  (umaxX umaxY : Z) :
  outputAttachment p = Some attachment ->
  Num.float_to_uint32 (RHI.vp_maxX (RPI.m_viewportState params)) = Some umaxX ->
  Num.float_to_uint32 (RHI.vp_maxY (RPI.m_viewportState params)) = Some umaxY ->
  exists p', FrameBeginInternal params p = Some p' /\
    Spec.scissor_ordered (m_scissorState p') = true /\
    (Num.float_is_nan (RHI.vp_minX (RPI.m_viewportState params)) = false ->
     Num.float_is_nan (RHI.vp_minY (RPI.m_viewportState params)) = false ->
     Spec.viewport_ordered (m_viewportState p') = true).
Proof.
  intros Hatt HX HY.
  destruct (FrameBeginInternal_defined params p attachment umaxX umaxY Hatt HX HY)
    as (p' & Hp' & H1 & H2 & H3 & H4 & H5 & H6 & H7 & H8).
  exists p'. split; [exact Hp' |]. split.
  - unfold Spec.scissor_ordered. rewrite H7, H8.
    apply andb_true_intro; split; apply Z.leb_le; apply Z.le_min_r.
  - intros HnX HnY. unfold Spec.viewport_ordered. rewrite H3, H4.
    apply andb_true_intro; split; apply NumFacts.min_float_le_right;
      try assumption.
    + rewrite H1. apply NumFacts.uint32_to_float_not_nan.
    + rewrite H2. apply NumFacts.uint32_to_float_not_nan.
Qed.

Lemma FrameBeginInternal_orders_rectangles_witness :
  exists p', FrameBeginInternal Examples.params_1280_720 Examples.pass_on_1080p = Some p' /\
    Spec.scissor_ordered (m_scissorState p') = true /\
    Spec.viewport_ordered (m_viewportState p') = true.
Proof.
  destruct (FrameBeginInternal_orders_rectangles
              Examples.params_1280_720 Examples.pass_on_1080p Examples.image_1920_1080
              1280 720 eq_refl eq_refl eq_refl)
    as (p' & Hp' & Hs & Hv).
  exists p'. split; [exact Hp' |]. split; [exact Hs |].
  apply Hv; reflexivity.
Defined.

(** C8 as written fails: a NaN incoming minX stays NaN, and NaN is not
    below the clamped maxX. *)
Lemma FrameBeginInternal_nan_min_unordered :
  exists p', FrameBeginInternal Examples.params_nan_min Examples.pass_on_1080p = Some p' /\
    RHI.vp_minX (m_viewportState p') = S754_nan /\
    Spec.viewport_ordered (m_viewportState p') = false.
Proof.
  eexists. split; [reflexivity |]. split; reflexivity.
Qed.

End FrameProofs.

(* ================================================================== *)
(** * Loading, reloading and drawing *)

Module PassProofs.
Import FullscreenTrianglePass.

(** ** What each member leaves untouched *)

Lemma UpdateSrgs_item (host : RPI.Host) (p : t) :
  m_item (UpdateSrgs host p) = m_item p.
Proof.
  unfold UpdateSrgs. destruct (m_shader p) as [shader |]; [| reflexivity].
  destruct (RPI.Shader_FindShaderResourceGroupLayout host shader RPI.Slot_Pass);
    reflexivity.
Qed.

Lemma LoadShader_item (host : RPI.Host) (p : t) :
  m_item (LoadShader host p) = m_item p.
Proof.
  unfold LoadShader.
  destruct (RPI.GetPassData (m_passDescriptor p)) as [passData |]; [| reflexivity].
  match goal with |- context [negb ?c] => destruct c end; cbn [negb]; [| reflexivity].
  match goal with |- context [set_shader ?s p] => destruct s as [shader |] end;
    cbn -[UpdateSrgs]; [| reflexivity].
  rewrite UpdateSrgs_item. reflexivity.
Qed.

Lemma BuildDrawItem_keeps_views (host : RPI.Host) (p : t) :
  RHI.m_indexBufferView (m_item (BuildDrawItem host p)) = RHI.m_indexBufferView (m_item p) /\
  RHI.m_streamBufferViews (m_item (BuildDrawItem host p)) = RHI.m_streamBufferViews (m_item p).
Proof. split; reflexivity. Qed.

Lemma FrameBeginInternal_item (params : RPI.FramePrepareParams) (p p' : t) :
  FrameBeginInternal params p = Some p' -> m_item p' = m_item p.
Proof.
  unfold FrameBeginInternal. intros H.
  destruct (outputAttachment p); [| discriminate].
  destruct (Num.float_to_uint32 _); [| discriminate].
  destruct (Num.float_to_uint32 _); [| discriminate].
  injection H as <-. reflexivity.
Qed.

Lemma FrameBeginInternal_keeps (params : RPI.FramePrepareParams) (p p' : t) :
  FrameBeginInternal params p = Some p' ->
  m_shader p' = m_shader p /\
  m_pipelineStateForDraw p' = m_pipelineStateForDraw p /\
  m_shaderResourceGroup p' = m_shaderResourceGroup p /\
  m_drawShaderResourceGroup p' = m_drawShaderResourceGroup p.
Proof.
  unfold FrameBeginInternal. intros H.
  destruct (outputAttachment p); [| discriminate].
  destruct (Num.float_to_uint32 _); [| discriminate].
  destruct (Num.float_to_uint32 _); [| discriminate].
  injection H as <-. repeat split; reflexivity.
Qed.

Lemma CompileResources_item (p : t) : m_item (CompileResources p) = m_item p.
Proof.
  unfold CompileResources.
  destruct (m_shaderResourceGroup p); cbn;
    destruct (m_drawShaderResourceGroup p); reflexivity.
Qed.

Lemma submitted_app (a b : RHI.CommandList) :
  PassLife.submitted (a ++ b) = PassLife.submitted a ++ PassLife.submitted b.
Proof. unfold PassLife.submitted. apply flat_map_app. Qed.

Lemma BuildCommandListInternal_submits_item (p : t) (cl : RHI.CommandList) :
  PassLife.submitted (BuildCommandListInternal p cl) = PassLife.submitted cl ++ [m_item p].
Proof. unfold BuildCommandListInternal. rewrite submitted_app. reflexivity. Qed.

(** ** The draw item never references geometry *)




Lemma Create_fails (host : RPI.Host) (descriptor : RPI.PassDescriptor) :
  Spec.resolution_fails host descriptor = true ->
  exists format args,
    Create host descriptor =
      engine (RPI.AZ_Error "PassSystem" format args) (RenderPass_ctor descriptor).
Proof.
  unfold Create, FullscreenTrianglePass, LoadShader, Spec.resolution_fails.
  change (m_passDescriptor (RenderPass_ctor descriptor)) with descriptor.
  destruct (RPI.GetPassData descriptor) as [passData |]; intros Hfail.
  - destruct (RPI.AssetId_IsValid (RPI.m_assetId (RPI.m_shaderAsset passData))).
    + destruct (RPI.AssetId_IsValid (RPI.asset_id _)); cbn [negb].
      * cbn [m_shader set_shader].
        destruct (RPI.Shader_FindOrCreate host _); [discriminate |].
        do 2 eexists. reflexivity.
      * do 2 eexists. reflexivity.
    + cbn. do 2 eexists. reflexivity.
  - do 2 eexists. reflexivity.
Qed.

Lemma Create_succeeds (host : RPI.Host) (descriptor : RPI.PassDescriptor) :
  Spec.resolution_fails host descriptor = false ->
  exists shader,
    m_shader (Create host descriptor) = Some shader /\
    In RPI.QueueForInitialization (m_engineLog (Create host descriptor)).
Proof.
  unfold Create, FullscreenTrianglePass, LoadShader, Spec.resolution_fails.
  change (m_passDescriptor (RenderPass_ctor descriptor)) with descriptor.
  destruct (RPI.GetPassData descriptor) as [passData |]; intros Hfail; [| discriminate].
  destruct (RPI.AssetId_IsValid (RPI.m_assetId (RPI.m_shaderAsset passData)));
    [| discriminate].
  destruct (RPI.AssetId_IsValid (RPI.asset_id _)); [| discriminate]. cbn [negb].
  cbn [m_shader set_shader].
  destruct (RPI.Shader_FindOrCreate host _) as [shader |]; [| discriminate].
  exists shader. cbn -[UpdateSrgs]. split.
  - unfold UpdateSrgs. cbn.
    destruct (RPI.Shader_FindShaderResourceGroupLayout host shader RPI.Slot_Pass); reflexivity.
  - apply in_or_app. left. apply in_or_app. left. apply in_or_app. right. left. reflexivity.
Qed.

Lemma ctor_error_inert (descriptor : RPI.PassDescriptor) (c : RPI.EngineCall) :
  Spec.inert (engine c (RenderPass_ctor descriptor)).
Proof. repeat split. Qed.

Lemma UpdateSrgs_without_shader (host : RPI.Host) (p : t) :
  m_shader p = None -> UpdateSrgs host p = p.
Proof. intros H. unfold UpdateSrgs. rewrite H. reflexivity. Qed.

Lemma UpdateShaderOptions_without_shader (host : RPI.Host) (o : RPI.ShaderOptionList) (p : t) :
  m_shader p = None -> UpdateShaderOptions host o p = p.
Proof. intros H. unfold UpdateShaderOptions. rewrite H. reflexivity. Qed.

Lemma invoke_inert (host : RPI.Host) (cb : PassLife.Callback) (w w' : PassLife.World) :
  Spec.inert (PassLife.pass w) ->
  PassLife.invoke host cb w = Some w' ->
  Spec.inert (PassLife.pass w') /\
  PassLife.submitted (PassLife.commandList w') =
    PassLife.submitted (PassLife.commandList w) ++
      (if PassLife.is_BuildCommandListInternal cb then [RHI.DrawItem_default] else []).
Proof.
  intros Hinert Hstep.
  pose proof Hinert as (Hsh & Hpso & Hsrg & Hdraw & Hitem).
  destruct cb; cbn in Hstep.
  - injection Hstep as <-. cbn. unfold OnShaderReinitialized.
    rewrite UpdateSrgs_without_shader by assumption. rewrite app_nil_r. auto.
  - injection Hstep as <-. cbn. unfold OnShaderAssetReinitialized.
    rewrite UpdateSrgs_without_shader by assumption. rewrite app_nil_r. auto.
  - injection Hstep as <-. cbn.
    rewrite UpdateShaderOptions_without_shader by assumption. rewrite app_nil_r. auto.
  - injection Hstep as <-. cbn. unfold InitializeInternal. cbn. rewrite Hsh.
    rewrite app_nil_r. split; [| reflexivity]. repeat split; assumption.
  - injection Hstep as <-. cbn. rewrite app_nil_r. split; [| reflexivity].
    repeat split; assumption.
  - destruct (FrameBeginInternal params (PassLife.pass w)) as [p' |] eqn:Hf; [| discriminate].
    injection Hstep as <-. cbn. rewrite app_nil_r. split; [| reflexivity].
    destruct (FrameBeginInternal_keeps _ _ _ Hf) as (K1 & K2 & K3 & K4).
    pose proof (FrameBeginInternal_item _ _ _ Hf) as K5.
    repeat split; congruence.
  - injection Hstep as <-. cbn. rewrite app_nil_r. auto.
  - injection Hstep as <-. cbn. unfold CompileResources. rewrite Hsrg. cbn. rewrite Hdraw.
    rewrite app_nil_r. auto.
  - injection Hstep as <-. cbn. rewrite BuildCommandListInternal_submits_item, Hitem. auto.
Qed.

Lemma run_inert (cbs : list (RPI.Host * PassLife.Callback)) :
  forall w w',
    Spec.inert (PassLife.pass w) ->
    PassLife.run cbs w = Some w' ->
    Spec.inert (PassLife.pass w') /\
    PassLife.submitted (PassLife.commandList w') =
      PassLife.submitted (PassLife.commandList w) ++
        repeat RHI.DrawItem_default (PassLife.executions cbs).
Proof.
  induction cbs as [| [host cb] rest IH]; cbn; intros w w' Hinert Hrun.
  - injection Hrun as <-. rewrite app_nil_r. auto.
  - destruct (PassLife.invoke host cb w) as [w1 |] eqn:Hstep; [| discriminate].
    destruct (invoke_inert host cb w w1 Hinert Hstep) as [Hinert1 Hsub1].
    destruct (IH w1 w' Hinert1 Hrun) as [Hinert' Hsub'].
    split; [exact Hinert' |]. rewrite Hsub', Hsub1, <- app_assoc.
    unfold PassLife.executions. cbn.
    destruct (PassLife.is_BuildCommandListInternal cb); reflexivity.
Qed.

Lemma run_total (cbs : list (RPI.Host * PassLife.Callback)) :
  forall w, PassLife.frame_begin_free cbs = true -> exists w', PassLife.run cbs w = Some w'.
Proof.
  induction cbs as [| [host cb] rest IH]; cbn; intros w Hfree.
  - eexists. reflexivity.
  - apply andb_prop in Hfree. destruct Hfree as [Hcb Hrest].
    destruct cb; cbn in Hcb; try discriminate; cbn; apply IH; exact Hrest.
Qed.

(** C5.  When the shader reference of the descriptor does not resolve
    (no [FullscreenTrianglePassData], an asset id that is invalid or not
    found, or [Shader::FindOrCreate] returning null), the constructor logs
    exactly one error and leaves the pass inert: [m_shader] is null, neither
    shader resource group is created, the pipeline state is untouched and
    the pass is not queued for initialization. *)
Theorem construction_failure_leaves_pass_inert
  (host : RPI.Host) (descriptor : RPI.PassDescriptor) :
  Spec.resolution_fails host descriptor = true ->
  (exists format args,
      m_engineLog (FullscreenTrianglePass host descriptor) =
        [RPI.AZ_Error "PassSystem" format args]) /\
  m_shader (FullscreenTrianglePass host descriptor) = None /\
  m_shaderResourceGroup (FullscreenTrianglePass host descriptor) = None /\
  m_drawShaderResourceGroup (FullscreenTrianglePass host descriptor) = None /\
  existsb RPI.is_QueueForInitialization
    (m_engineLog (FullscreenTrianglePass host descriptor)) = false /\
  Spec.inert (FullscreenTrianglePass host descriptor).
Proof.
  intros Hfail.
  destruct (Create_fails host descriptor Hfail) as (format & args & Heq).
  unfold Create in Heq. rewrite Heq.
  split; [exists format, args; reflexivity |].
  repeat split.
Qed.

Lemma construction_failure_leaves_pass_inert_witness :
  m_shader (FullscreenTrianglePass Examples.host_no_shader Examples.descriptor_ok) = None.
Proof.
  refine (proj1 (proj2 (construction_failure_leaves_pass_inert
                          Examples.host_no_shader Examples.descriptor_ok _))).
  vm_compute. reflexivity.
Defined.

(** C3 (as the code has it).  A pass whose configuration data is missing
    or whose shader does not load logs one error and returns normally; from
    then on, whatever callbacks it receives, it stays inert: no shader, no
    shader resource groups, no call on the pipeline state (so none is ever
    finalized) and a draw item without pipeline state.  A run without
    [FrameBeginInternal] always completes.  [BuildCommandListInternal] has
    no guard: each execution of the pass submits the default-constructed
    draw item. *)
Theorem failed_load_logs_and_disables
  (host : RPI.Host) (descriptor : RPI.PassDescriptor)
  (cbs : list (RPI.Host * PassLife.Callback)) :
  Spec.resolution_fails host descriptor = true ->
  (exists format args,
      m_engineLog (Create host descriptor) = [RPI.AZ_Error "PassSystem" format args]) /\
  Spec.inert (Create host descriptor) /\
  (PassLife.frame_begin_free cbs = true ->
   exists w, PassLife.run cbs (PassLife.created host descriptor) = Some w) /\
  (forall w,
      PassLife.run cbs (PassLife.created host descriptor) = Some w ->
      Spec.inert (PassLife.pass w) /\
      existsb RPI.is_Pso_Finalize (m_pipelineStateForDraw (PassLife.pass w)) = false /\
      RHI.m_pipelineState (m_item (PassLife.pass w)) = None /\
      PassLife.submitted (PassLife.commandList w) =
        repeat RHI.DrawItem_default (PassLife.executions cbs)).
Proof.
  intros Hfail.
  destruct (Create_fails host descriptor Hfail) as (format & args & Heq).
  assert (Hinert : Spec.inert (Create host descriptor))
    by (rewrite Heq; apply ctor_error_inert).
  split; [exists format, args; rewrite Heq; reflexivity |].
  split; [exact Hinert |].
  split; [intros Hfree; apply run_total; exact Hfree |].
  intros w Hrun.
  destruct (run_inert cbs (PassLife.created host descriptor) w Hinert Hrun)
    as [Hw Hsub].
  split; [exact Hw |].
  destruct Hw as (Hsh & Hpso & Hsrg & Hdraw & Hitem).
  rewrite Hpso, Hitem. split; [reflexivity |]. split; [reflexivity |].
  exact Hsub.
Qed.

Lemma failed_load_logs_and_disables_witness :
  Spec.inert (Create Examples.host_ok Examples.descriptor_without_data).
Proof.
  refine (proj1 (proj2 (failed_load_logs_and_disables
                          Examples.host_ok Examples.descriptor_without_data [] _))).
  vm_compute. reflexivity.
Defined.

(** C3 as written fails: after a failed load, initialising and executing
    the pass submits one draw item. *)
Lemma inert_pass_still_submits_when_executed :
  Spec.resolution_fails Examples.host_ok Examples.descriptor_without_data = true /\
  exists w,
    PassLife.run [(Examples.host_ok, PassLife.InitializeInternal);
                  (Examples.host_ok, PassLife.BuildCommandListInternal)]
      (PassLife.created Examples.host_ok Examples.descriptor_without_data) = Some w /\
    PassLife.submitted (PassLife.commandList w) = [RHI.DrawItem_default] /\
    PassLife.submitted (PassLife.commandList w) <> [].
Proof.
  split; [vm_compute; reflexivity |].
  eexists. split; [vm_compute; reflexivity |].
  split; [vm_compute; reflexivity | discriminate].
Qed.

(** C10.  While [m_shader] is null, [UpdateSrgs] and with it both shader
    reload notifications return the pass unchanged (in particular
    [m_shaderResourceGroup], [m_drawShaderResourceGroup] and the pipeline
    state), and so does [UpdateShaderOptions]. *)
Theorem reload_without_shader_changes_nothing (host : RPI.Host) (p : t) :
  m_shader p = None ->
  UpdateSrgs host p = p /\
  OnShaderReinitialized host p = p /\
  OnShaderAssetReinitialized host p = p /\
  (forall shaderOptions, UpdateShaderOptions host shaderOptions p = p).
Proof.
  intros H. unfold OnShaderReinitialized, OnShaderAssetReinitialized.
  rewrite (UpdateSrgs_without_shader host p H).
  repeat split. intros o. apply UpdateShaderOptions_without_shader. exact H.
Qed.

Lemma reload_without_shader_changes_nothing_witness :
  OnShaderReinitialized Examples.host_ok
    (Create Examples.host_ok Examples.descriptor_without_data) =
  Create Examples.host_ok Examples.descriptor_without_data.
Proof.
  refine (proj1 (proj2 (reload_without_shader_changes_nothing Examples.host_ok
                          (Create Examples.host_ok Examples.descriptor_without_data) _))).
  vm_compute. reflexivity.
Defined.

(** C6 (as the code has it).  With a shader loaded, both reload
    notifications do the same: they recreate the default draw shader
    resource group and update the pipeline state's SRG variant fallback
    with the current pass shader resource group; the pass shader resource
    group is recreated from the shader's Pass-slot layout, and the
    descriptor's data mappings re-bound to it, when the shader has such a
    layout, and is left as it was (nothing re-bound) when it has none. *)
Theorem shader_reload_rederives_bindings
  (host : RPI.Host) (p : t) (shader : RPI.ShaderPtr) :
  m_shader p = Some shader ->
  OnShaderAssetReinitialized host p = OnShaderReinitialized host p /\
  m_drawShaderResourceGroup (OnShaderReinitialized host p) =
    RPI.Shader_CreateDefaultDrawSrg host shader false /\
  m_pipelineStateForDraw (OnShaderReinitialized host p) =
    m_pipelineStateForDraw p ++
      [RPI.Pso_UpdateSrgVariantFallback (m_shaderResourceGroup (OnShaderReinitialized host p))] /\
  (forall layout,
      RPI.Shader_FindShaderResourceGroupLayout host shader RPI.Slot_Pass = Some layout ->
      m_shaderResourceGroup (OnShaderReinitialized host p) =
        RPI.ShaderResourceGroup_Create host (RPI.Shader_GetAsset host shader)
          (RPI.Shader_GetSupervariantIndex host shader) (RPI.layout_name layout) /\
      m_engineLog (OnShaderReinitialized host p) =
        m_engineLog p ++
          [RPI.BindDataMappingsToSrg (m_passDescriptor p)
             (m_shaderResourceGroup (OnShaderReinitialized host p))] /\
      Spec.rederives_all host p (OnShaderReinitialized host p)) /\
  (RPI.Shader_FindShaderResourceGroupLayout host shader RPI.Slot_Pass = None ->
   m_shaderResourceGroup (OnShaderReinitialized host p) = m_shaderResourceGroup p /\
   m_engineLog (OnShaderReinitialized host p) = m_engineLog p).
Proof.
  intros Hsh. unfold OnShaderAssetReinitialized, OnShaderReinitialized, UpdateSrgs.
  rewrite Hsh.
  destruct (RPI.Shader_FindShaderResourceGroupLayout host shader RPI.Slot_Pass)
    as [layout |] eqn:Hlayout.
  - split; [reflexivity |]. split; [reflexivity |]. split; [reflexivity |].
    split; [| discriminate].
    intros layout' Heq. injection Heq as <-.
    split; [reflexivity |]. split; [reflexivity |].
    exists shader, layout. unfold UpdateSrgs. rewrite Hsh, Hlayout.
    repeat split; try assumption; reflexivity.
  - split; [reflexivity |]. split; [reflexivity |]. split; [reflexivity |].
    split; [discriminate |]. intros _. split; reflexivity.
Qed.

Lemma shader_reload_rederives_bindings_witness :
  m_drawShaderResourceGroup (OnShaderReinitialized Examples.host_ok Examples.pass_on_1080p) =
  Some 11%N.
Proof.
  refine (proj1 (proj2 (shader_reload_rederives_bindings Examples.host_ok
                          Examples.pass_on_1080p 1%N _))).
  vm_compute. reflexivity.
Defined.

(** C6 as written fails: on a reload of a shader without a Pass-slot
    layout the pass shader resource group is not recreated and no data
    mapping is re-bound, although the engine would create one; and a
    reload notification reaching a pass without shader re-derives nothing. *)
Lemma reload_without_pass_layout_keeps_pass_srg :
  let p := Create Examples.host_no_pass_srg Examples.descriptor_ok in
  let p' := OnShaderReinitialized Examples.host_no_pass_srg p in
  let q := Create Examples.host_ok Examples.descriptor_without_data in
  m_shader p = Some 1%N /\
  m_shaderResourceGroup p' = None /\
  RPI.ShaderResourceGroup_Create Examples.host_no_pass_srg Examples.goodAsset 0 "PassSrg" =
    Some 10%N /\
  existsb RPI.is_BindDataMappingsToSrg (m_engineLog p') = false /\
  ~ Spec.rederives_all Examples.host_no_pass_srg p p' /\
  m_shader q = None /\
  ~ Spec.rederives_all Examples.host_ok q (OnShaderAssetReinitialized Examples.host_ok q).
Proof.
  split; [vm_compute; reflexivity |].
  split; [vm_compute; reflexivity |].
  split; [reflexivity |].
  split; [vm_compute; reflexivity |].
  split; [intros (shader & layout & _ & Hlayout & _); discriminate Hlayout |].
  split; [vm_compute; reflexivity |].
  intros (shader & layout & Hshader & _). vm_compute in Hshader. discriminate Hshader.
Qed.

End PassProofs.

(* ================================================================== *)
(** * The graph document view and the document notifications *)

Module ViewProofs.
Import GraphDocumentView.

(** One tracked "document opened", in closed form. *)
Lemma OnDocumentOpened_tracked (buses : Buses) (v : t) :
  OnDocumentOpened buses (m_documentId v) v =
    ({| m_toolId := m_toolId v; m_documentId := m_documentId v;
        m_openedBefore := m_openedBefore v || IsValid (fetched buses v);
        m_activeGraphId := fetched buses v |},
     SetActiveGraphId (fetched buses v) true ::
       (if negb (m_openedBefore v) && IsValid (fetched buses v)
        then [ShowEntireGraph
                (EventResult ViewId_default (GetViewId buses (fetched buses v)))]
        else [])).
Proof.
  unfold OnDocumentOpened, fetched. rewrite N.eqb_refl. cbn.
  destruct (m_openedBefore v); cbn; [reflexivity |].
  destruct (IsValid _); reflexivity.
Qed.

Lemma centered_tracked (buses : Buses) (v : t) :
  centered (snd (OnDocumentOpened buses (m_documentId v) v)) =
    negb (m_openedBefore v) && IsValid (fetched buses v).
Proof.
  rewrite OnDocumentOpened_tracked. cbn.
  destruct (negb (m_openedBefore v) && IsValid (fetched buses v)); reflexivity.
Qed.

Lemma deliver_opens (d : Uuid) (bs : list Buses) :
  forall (v : t) (i : nat) (b : Buses),
    m_documentId v = d ->
    nth_error bs i = Some b ->
    exists v' calls,
      nth_error (deliver (map (fun b' => (b', DocumentOpened d)) bs) v) i = Some (v', calls) /\
      (exists rest,
          calls = SetActiveGraphId (EventResult GraphId_default (GetGraphId b d)) true :: rest) /\
      m_activeGraphId v' = EventResult GraphId_default (GetGraphId b d) /\
      (centered calls = true <->
         m_openedBefore v = false /\
         IsValid (EventResult GraphId_default (GetGraphId b d)) = true /\
         all_invalid d (firstn i bs) = true).
Proof.
  induction bs as [| b0 rest IH]; intros v i b Hd Hnth.
  - destruct i; discriminate.
  - destruct i as [| j].
    + cbn in Hnth. injection Hnth as ->. cbn [map deliver nth_error handle].
      subst d. pose proof (centered_tracked b v) as Hcen.
      rewrite OnDocumentOpened_tracked in *. cbn [snd] in Hcen.
      do 2 eexists. split; [reflexivity |].
      split; [eexists; reflexivity |].
      split; [reflexivity |].
      rewrite Hcen. unfold fetched. cbn [firstn all_invalid forallb].
      rewrite andb_true_iff, negb_true_iff. tauto.
    + cbn in Hnth. cbn [map deliver nth_error handle]. subst d.
      rewrite OnDocumentOpened_tracked. cbn [fst].
      match goal with |- context [deliver _ ?v1] => set (v1' := v1) end.
      destruct (IH v1' j b eq_refl Hnth) as (v' & calls & Hn & Hc & Ha & Hiff).
      exists v', calls. split; [exact Hn |]. split; [exact Hc |]. split; [exact Ha |].
      rewrite Hiff. subst v1'. cbn [m_openedBefore firstn all_invalid forallb].
      fold (all_invalid (m_documentId v) (firstn j rest)). unfold fetched.
      rewrite orb_false_iff, andb_true_iff, negb_true_iff. tauto.
Qed.

Lemma GraphDocumentView_fresh (buses : Buses) (toolId : Crc32) (documentId : Uuid) :
  m_openedBefore (fst (GraphDocumentView buses toolId documentId)) = false /\
  m_documentId (fst (GraphDocumentView buses toolId documentId)) = documentId.
Proof.
  unfold GraphDocumentView.
  match goal with |- context [OnDocumentOpened ?b ?d ?v] =>
    change d with (m_documentId v); rewrite (OnDocumentOpened_tracked b v) end.
  split; reflexivity.
Qed.

(** C4.  In a run of "document opened" notifications for the tracked
    document, every notification is handled: it fetches the graph id from
    the document (the default id when nobody answers), activates it in the
    canvas with notification, and the view is centered (ShowEntireGraph) at
    a notification exactly when the view had not been opened before, the
    fetched graph is valid and no earlier notification of the run fetched
    a valid graph: on the first open of a valid graph and never later.  A
    freshly constructed view has not been opened before. *)
Theorem tracked_opens_activate_and_center_once
  (v : t) (bs : list Buses) (i : nat) (b : Buses) :
  nth_error bs i = Some b ->
  exists v' calls,
    nth_error (deliver (opens_of v bs) v) i = Some (v', calls) /\
    (exists rest, calls = SetActiveGraphId (fetched b v) true :: rest) /\
    m_activeGraphId v' = fetched b v /\
    (centered calls = true <->
       m_openedBefore v = false /\
       IsValid (fetched b v) = true /\
       forallb (fun b' => negb (IsValid (fetched b' v))) (firstn i bs) = true) /\
    (forall buses toolId documentId,
        m_openedBefore (fst (GraphDocumentView buses toolId documentId)) = false).
Proof.
  intros Hnth.
  destruct (deliver_opens (m_documentId v) bs v i b eq_refl Hnth)
    as (v' & calls & Hn & Hc & Ha & Hiff).
  exists v', calls. unfold opens_of, fetched.
  split; [exact Hn |]. split; [exact Hc |]. split; [exact Ha |].
  split; [exact Hiff |].
  intros buses toolId documentId. apply GraphDocumentView_fresh.
Qed.

Lemma tracked_opens_activate_and_center_once_witness :
  exists v' calls,
    nth_error (deliver (opens_of view_of_document_5 [buses_silent; buses_graph_7; buses_graph_7])
                 view_of_document_5) 1 = Some (v', calls) /\
    m_activeGraphId v' = 7%N /\
    centered calls = true.
Proof.
  destruct (tracked_opens_activate_and_center_once view_of_document_5
              [buses_silent; buses_graph_7; buses_graph_7] 1 buses_graph_7 eq_refl)
    as (v' & calls & Hn & _ & Ha & Hiff & _).
  exists v', calls. split; [exact Hn |]. split; [exact Ha |].
  apply Hiff. repeat split.
Defined.

(** The constructor opens the document itself before any notification
    arrives: with a valid graph it centers the view, and since it then
    resets [m_openedBefore], the first notification centers it again. *)
Example constructor_open_centers_too :
  centered (snd (GraphDocumentView buses_graph_7 1%N 5%N)) = true /\
  centered (snd (OnDocumentOpened buses_graph_7 5%N
                   (fst (GraphDocumentView buses_graph_7 1%N 5%N)))) = true.
Proof. split; reflexivity. Qed.

(** C7.  "Document closed" and "document destroyed" for the tracked
    document set the active graph id to the default, invalid [GraphId]
    (with notification); for any other document they change nothing and
    call nothing. *)
Theorem closed_or_destroyed_deactivates (v : t) (documentId : Uuid) :
  (m_documentId v = documentId ->
   m_activeGraphId (fst (OnDocumentClosed documentId v)) = GraphId_default /\
   snd (OnDocumentClosed documentId v) = [SetActiveGraphId GraphId_default true] /\
   m_activeGraphId (fst (OnDocumentDestroyed documentId v)) = GraphId_default /\
   snd (OnDocumentDestroyed documentId v) = [SetActiveGraphId GraphId_default true] /\
   IsValid GraphId_default = false) /\
  (m_documentId v <> documentId ->
   OnDocumentClosed documentId v = (v, []) /\
   OnDocumentDestroyed documentId v = (v, [])).
Proof.
  unfold OnDocumentClosed, OnDocumentDestroyed. split.
  - intros Heq. apply N.eqb_eq in Heq. rewrite Heq. repeat split.
  - intros Hne. apply N.eqb_neq in Hne. rewrite Hne. split; reflexivity.
Qed.

Lemma closed_or_destroyed_deactivates_witness :
  m_activeGraphId (fst (OnDocumentClosed 5%N view_of_document_5)) = GraphId_default /\
  OnDocumentDestroyed 6%N view_of_document_5 = (view_of_document_5, []).
Proof.
  split.
  - apply (proj1 (closed_or_destroyed_deactivates view_of_document_5 5%N)). reflexivity.
  - apply (proj2 (closed_or_destroyed_deactivates view_of_document_5 6%N)). discriminate.
Defined.

(** C9.  "Document opened" for a document other than the tracked one
    sets the active graph id to the default, invalid [GraphId] (without
    notification), does not center the view, and leaves [m_documentId] and
    [m_openedBefore] as they were. *)
Theorem foreign_open_deactivates (buses : Buses) (v : t) (documentId : Uuid) :
  m_documentId v <> documentId ->
  m_activeGraphId (fst (OnDocumentOpened buses documentId v)) = GraphId_default /\
  IsValid GraphId_default = false /\
  snd (OnDocumentOpened buses documentId v) = [SetActiveGraphId GraphId_default false] /\
  centered (snd (OnDocumentOpened buses documentId v)) = false /\
  m_documentId (fst (OnDocumentOpened buses documentId v)) = m_documentId v /\
  m_openedBefore (fst (OnDocumentOpened buses documentId v)) = m_openedBefore v.
Proof.
  intros Hne. apply N.eqb_neq in Hne. unfold OnDocumentOpened. rewrite Hne.
  repeat split.
Qed.

Lemma foreign_open_deactivates_witness :
  m_activeGraphId (fst (OnDocumentOpened buses_graph_7 6%N view_of_document_5)) =
  GraphId_default.
Proof.
  apply (foreign_open_deactivates buses_graph_7 view_of_document_5 6%N). discriminate.
Defined.

End ViewProofs.

(* ================================================================== *)
(** * Conversions between unsigned integers and floats *)

Module NumRoundTrip.
Import Num.

Lemma digits2_pos_bounds (m : positive) :
  2 ^ (Zpos (digits2_pos m) - 1) <= Zpos m < 2 ^ Zpos (digits2_pos m).
Proof.
  induction m as [m IH | m IH |]; cbn [digits2_pos].
  - rewrite Pos2Z.inj_succ.
    replace (Z.succ (Zpos (digits2_pos m)) - 1) with (Z.succ (Zpos (digits2_pos m) - 1)) by lia.
    rewrite !Z.pow_succ_r by lia. lia.
  - rewrite Pos2Z.inj_succ.
    replace (Z.succ (Zpos (digits2_pos m)) - 1) with (Z.succ (Zpos (digits2_pos m) - 1)) by lia.
    rewrite !Z.pow_succ_r by lia. lia.
  - cbn. lia.
Qed.

Lemma digits2_pos_le_24 (m : positive) :
  Zpos m < 2 ^ 24 -> Zpos (digits2_pos m) <= 24.
Proof.
  intros H. pose proof (digits2_pos_bounds m) as [Hlo _].
  destruct (Z_le_gt_dec (Zpos (digits2_pos m)) 24) as [Hle | Hgt]; [exact Hle |].
  exfalso.
  assert (2 ^ 24 <= 2 ^ (Zpos (digits2_pos m) - 1)) by (apply Z.pow_le_mono_r; lia).
  lia.
Qed.

Lemma iter_xO_value (m k : positive) :
  Zpos (Pos.iter xO m k) = Zpos m * 2 ^ Zpos k.
Proof.
  induction k as [| k IH] using Pos.peano_ind.
  - cbn. lia.
  - rewrite Pos.iter_succ, Pos2Z.inj_xO, IH, Pos2Z.inj_succ, Z.pow_succ_r by lia. lia.
Qed.

Lemma iter_xO_digits (m k : positive) :
  Zpos (digits2_pos (Pos.iter xO m k)) = Zpos (digits2_pos m) + Zpos k.
Proof.
  induction k as [| k IH] using Pos.peano_ind.
  - cbn. lia.
  - rewrite Pos.iter_succ. cbn [digits2_pos]. rewrite Pos2Z.inj_succ, IH. lia.
Qed.

(** A mantissa of exactly 24 digits with a small exponent is kept as it is. *)
Lemma binary_round_aux_exact (mz : positive) (ez : Z) :
  Zpos (digits2_pos mz) = 24 -> -23 <= ez <= 0 ->
  binary_round_aux float_prec float_emax false (Zpos mz) ez loc_Exact =
    S754_finite false mz ez.
Proof.
  intros Hd He.
  assert (Hshift : shr_fexp float_prec float_emax (Zpos mz) ez loc_Exact =
                   ({| shr_m := Zpos mz; shr_r := false; shr_s := false |}, ez)).
  { unfold shr_fexp, Zdigits2, fexp, emin, float_prec, float_emax. rewrite Hd.
    replace (Z.max (24 + ez - 24) (3 - 128 - 24) - ez) with 0 by lia.
    reflexivity. }
  unfold binary_round_aux. rewrite Hshift. cbn [shr_m loc_of_shr_record round_nearest_even].
  rewrite Hshift. cbn [shr_m].
  unfold float_emax, float_prec.
  destruct (Z.leb_spec ez (128 - 24)); [reflexivity | lia].
Qed.

Lemma uint32_to_float_exact (m : positive) :
  Zpos m < 2 ^ 24 ->
  exists mz ez,
    uint32_to_float (Zpos m) = S754_finite false mz ez /\
    -23 <= ez <= 0 /\ Zpos mz = Zpos m * 2 ^ (- ez) /\
    Zpos (digits2_pos mz) = 24.
Proof.
  intros Hm. pose proof (digits2_pos_le_24 m Hm) as Hd.
  assert (0 < Zpos (digits2_pos m)) by lia.
  unfold uint32_to_float, binary_normalize, binary_round, shl_align.
  unfold fexp, emin, float_prec, float_emax.
  replace (Z.max (Zpos (digits2_pos m) + 0 - 24) (3 - 128 - 24))
    with (Zpos (digits2_pos m) - 24) by lia.
  destruct (Zpos (digits2_pos m) - 24 - 0) as [| k | k] eqn:Hk.
  - exists m, 0. split.
    + replace (Zpos (digits2_pos m) - 24) with 0 by lia.
      apply (binary_round_aux_exact m 0); lia.
    + split; [lia |]. split; [cbn; lia | lia].
  - lia.
  - exists (Pos.iter xO m k), (Zpos (digits2_pos m) - 24). split.
    + apply binary_round_aux_exact; [rewrite iter_xO_digits; lia | lia].
    + split; [lia |]. split; [rewrite iter_xO_value; f_equal; f_equal; lia |].
      rewrite iter_xO_digits. lia.
Qed.

Lemma uint32_float_round_trip_helper (n : Z) :
  0 <= n < 2 ^ 24 -> float_to_uint32 (uint32_to_float n) = Some n.
Proof.
  intros Hn. destruct n as [| m | m]; [reflexivity | | lia].
  destruct (uint32_to_float_exact m) as (mz & ez & Heq & He & Hv & _); [lia |].
  rewrite Heq. unfold float_to_uint32.
  assert (Hsh : Z.shiftl (Zpos mz) ez = Zpos m).
  { rewrite Hv. replace ez with (- (- ez)) at 2 by lia.
    rewrite Z.shiftl_opp_r, Z.shiftr_div_pow2 by lia.
    apply Z.div_mul. apply Z.pow_nonzero; lia. }
  rewrite Hsh. destruct (Z.ltb_spec (Zpos m) (2 ^ 32)); [reflexivity | lia].
Qed.

(** X1.  The two conversions of [FrameBeginInternal] are inverse on small
    numbers: an unsigned integer below 2^24 converts to a valid binary32
    float that is not NaN, and converting that float back gives the same
    integer. *)
Theorem uint32_float_round_trip (n : Z) :
  0 <= n < 2 ^ 24 ->
  float_to_uint32 (uint32_to_float n) = Some n /\
  float_valid (uint32_to_float n) = true /\
  float_is_nan (uint32_to_float n) = false.
Proof.
  intros Hn. split; [apply uint32_float_round_trip_helper; exact Hn |].
  split; [| apply NumFacts.uint32_to_float_not_nan].
  destruct n as [| m | m]; [reflexivity | | lia].
  destruct (uint32_to_float_exact m) as (mz & ez & Heq & He & _ & Hd); [lia |].
  rewrite Heq. unfold float_valid, valid_binary, bounded, canonical_mantissa, fexp, emin,
    float_prec, float_emax.
  rewrite Hd. apply andb_true_intro. split.
  - apply Z.eqb_eq. lia.
  - apply Z.leb_le. lia.
Qed.

Lemma uint32_float_round_trip_witness :
  float_to_uint32 (uint32_to_float 1920) = Some 1920.
Proof. apply (proj1 (uint32_float_round_trip 1920 ltac:(lia))). Defined.

End NumRoundTrip.

(* ================================================================== *)
(** * More about a frame: extents, idempotence, execution *)

Module FrameMore.
Import FullscreenTrianglePass.
Import NumRoundTrip.

Lemma float_to_uint32_range (f : Num.float) (u : Z) :
  Num.float_to_uint32 f = Some u -> 0 <= u < 2 ^ 32.
Proof.
  destruct f as [s | s | | s m e]; unfold Num.float_to_uint32; cbv zeta;
    intros H; try discriminate.
  - injection H as <-. lia.
  - assert (0 <= Z.shiftl (Zpos m) e) by (apply Z.shiftl_nonneg; lia).
    destruct s.
    + destruct (Z.eqb_spec (Z.shiftl (Zpos m) e) 0); [| discriminate].
      injection H as <-. lia.
    + destruct (Z.ltb_spec (Z.shiftl (Zpos m) e) (2 ^ 32)); [| discriminate].
      injection H as <-. lia.
Qed.

Lemma min_float_idempotent (a b : Num.float) :
  Num.min_float (Num.min_float a b) b = Num.min_float a b.
Proof.
  unfold Num.min_float, Num.AZStd_min.
  destruct (Num.float_gtb a b) eqn:Hab; [| rewrite Hab; reflexivity].
  destruct (Num.float_gtb b b); reflexivity.
Qed.

Lemma outputAttachment_keeps (c : RPI.EngineCall) (s : RHI.Scissor) (v : RHI.Viewport) (p : t) :
  outputAttachment (engine c (set_scissorState s (set_viewportState v p))) = outputAttachment p.
Proof. reflexivity. Qed.

(** The whole state computed by [FrameBeginInternal]. *)
Lemma FrameBeginInternal_result
  (params : RPI.FramePrepareParams) (p : t) (attachment : RPI.PassAttachment)
  (umaxX umaxY : Z) :
  outputAttachment p = Some attachment ->
  Num.float_to_uint32 (RHI.vp_maxX (RPI.m_viewportState params)) = Some umaxX ->
  Num.float_to_uint32 (RHI.vp_maxY (RPI.m_viewportState params)) = Some umaxY ->
  let w := RHI.m_width (RPI.att_image_size attachment) in
  let h := RHI.m_height (RPI.att_image_size attachment) in
  let vmaxX := Num.uint32_to_float (Z.min umaxX w) in
  let vmaxY := Num.uint32_to_float (Z.min umaxY h) in
  let smaxX := Num.uint32_to_int32
                 (Z.min (Num.int32_to_uint32 (RHI.sc_maxX (RPI.m_scissorState params))) w) in
  let smaxY := Num.uint32_to_int32
                 (Z.min (Num.int32_to_uint32 (RHI.sc_maxY (RPI.m_scissorState params))) h) in
  FrameBeginInternal params p =
    Some (engine (RPI.RenderPass_FrameBeginInternal params)
            (set_scissorState
               {| RHI.sc_minX := Z.min (RHI.sc_minX (RPI.m_scissorState params)) smaxX;
                  RHI.sc_minY := Z.min (RHI.sc_minY (RPI.m_scissorState params)) smaxY;
                  RHI.sc_maxX := smaxX; RHI.sc_maxY := smaxY |}
               (set_viewportState
                  {| RHI.vp_minX := Num.min_float (RHI.vp_minX (RPI.m_viewportState params)) vmaxX;
                     RHI.vp_maxX := vmaxX;
                     RHI.vp_minY := Num.min_float (RHI.vp_minY (RPI.m_viewportState params)) vmaxY;
                     RHI.vp_maxY := vmaxY;
                     RHI.vp_minZ := RHI.vp_minZ (m_viewportState p);
                     RHI.vp_maxZ := RHI.vp_maxZ (m_viewportState p) |}
                  p))).
Proof.
  intros Hatt HX HY. unfold FrameBeginInternal. rewrite Hatt, HX, HY. cbn.
  rewrite ?NumFacts.min_u32_Zmin, ?NumFacts.min_i32_Zmin. reflexivity.
Qed.

Lemma clamped_scissor_max_range (m extent : Z) :
  0 <= extent < 2 ^ 31 ->
  0 <= Num.uint32_to_int32 (Z.min (Num.int32_to_uint32 m) extent) <= extent.
Proof.
  intros He. pose proof (NumFacts.int32_to_uint32_range m) as Hr.
  unfold Num.is_uint32 in Hr.
  rewrite NumFacts.uint32_to_int32_small by lia. lia.
Qed.

Lemma clamped_scissor_max_fixed (k extent : Z) :
  0 <= k <= extent -> extent < 2 ^ 31 ->
  Num.uint32_to_int32 (Z.min (Num.int32_to_uint32 k) extent) = k.
Proof.
  intros Hk He. unfold Num.int32_to_uint32. rewrite Z.mod_small by lia.
  rewrite NumFacts.uint32_to_int32_small by lia. lia.
Qed.

(** X2.  On an image whose extents are below 2^31, whatever scissor comes
    in (negative maxima included), the scissor left by [FrameBeginInternal]
    has its maxima between 0 and the image extents and its minima not above
    them; a non-negative incoming minimum stays non-negative. *)
Theorem scissor_max_within_image
  (params : RPI.FramePrepareParams) (p p' : t) (attachment : RPI.PassAttachment) :
  outputAttachment p = Some attachment ->
  0 <= RHI.m_width (RPI.att_image_size attachment) < 2 ^ 31 ->
  0 <= RHI.m_height (RPI.att_image_size attachment) < 2 ^ 31 ->
  FrameBeginInternal params p = Some p' ->
  0 <= RHI.sc_maxX (m_scissorState p') <= RHI.m_width (RPI.att_image_size attachment) /\
  0 <= RHI.sc_maxY (m_scissorState p') <= RHI.m_height (RPI.att_image_size attachment) /\
  RHI.sc_minX (m_scissorState p') <= RHI.sc_maxX (m_scissorState p') /\
  RHI.sc_minY (m_scissorState p') <= RHI.sc_maxY (m_scissorState p') /\
  (0 <= RHI.sc_minX (RPI.m_scissorState params) -> 0 <= RHI.sc_minX (m_scissorState p')) /\
  (0 <= RHI.sc_minY (RPI.m_scissorState params) -> 0 <= RHI.sc_minY (m_scissorState p')).
Proof.
  intros Hatt Hw Hh Hf.
  destruct (Num.float_to_uint32 (RHI.vp_maxX (RPI.m_viewportState params))) as [ux |] eqn:HX;
    [| unfold FrameBeginInternal in Hf; rewrite Hatt, HX in Hf; discriminate].
  destruct (Num.float_to_uint32 (RHI.vp_maxY (RPI.m_viewportState params))) as [uy |] eqn:HY;
    [| unfold FrameBeginInternal in Hf; rewrite Hatt, HX, HY in Hf; discriminate].
  rewrite (FrameBeginInternal_result params p attachment ux uy Hatt HX HY) in Hf.
  injection Hf as <-. cbn.
  pose proof (clamped_scissor_max_range (RHI.sc_maxX (RPI.m_scissorState params)) _ Hw).
  pose proof (clamped_scissor_max_range (RHI.sc_maxY (RPI.m_scissorState params)) _ Hh).
  repeat split; lia.
Qed.

(** X3.  On an image whose extents are below 2^24, the viewport maxima
    left by [FrameBeginInternal] are whole numbers between 0 and the image
    extents. *)
Theorem viewport_max_within_image
  (params : RPI.FramePrepareParams) (p p' : t) (attachment : RPI.PassAttachment) :
  outputAttachment p = Some attachment ->
  0 <= RHI.m_width (RPI.att_image_size attachment) < 2 ^ 24 ->
  0 <= RHI.m_height (RPI.att_image_size attachment) < 2 ^ 24 ->
  FrameBeginInternal params p = Some p' ->
  exists x y,
    Num.float_to_uint32 (RHI.vp_maxX (m_viewportState p')) = Some x /\
    Num.float_to_uint32 (RHI.vp_maxY (m_viewportState p')) = Some y /\
    RHI.vp_maxX (m_viewportState p') = Num.uint32_to_float x /\
    RHI.vp_maxY (m_viewportState p') = Num.uint32_to_float y /\
    0 <= x <= RHI.m_width (RPI.att_image_size attachment) /\
    0 <= y <= RHI.m_height (RPI.att_image_size attachment).
Proof.
  intros Hatt Hw Hh Hf.
  destruct (Num.float_to_uint32 (RHI.vp_maxX (RPI.m_viewportState params))) as [ux |] eqn:HX;
    [| unfold FrameBeginInternal in Hf; rewrite Hatt, HX in Hf; discriminate].
  destruct (Num.float_to_uint32 (RHI.vp_maxY (RPI.m_viewportState params))) as [uy |] eqn:HY;
    [| unfold FrameBeginInternal in Hf; rewrite Hatt, HX, HY in Hf; discriminate].
  rewrite (FrameBeginInternal_result params p attachment ux uy Hatt HX HY) in Hf.
  injection Hf as <-. cbn.
  pose proof (float_to_uint32_range _ _ HX). pose proof (float_to_uint32_range _ _ HY).
  exists (Z.min ux (RHI.m_width (RPI.att_image_size attachment))),
         (Z.min uy (RHI.m_height (RPI.att_image_size attachment))).
  rewrite !uint32_float_round_trip_helper by lia.
  repeat split; lia.
Qed.

Lemma CompileResources_keeps (p : t) :
  m_viewportState (CompileResources p) = m_viewportState p /\
  m_scissorState (CompileResources p) = m_scissorState p /\
  m_shader (CompileResources p) = m_shader p /\
  m_stencilRef (CompileResources p) = m_stencilRef p /\
  m_passDescriptor (CompileResources p) = m_passDescriptor p /\
  m_pipelineStateForDraw (CompileResources p) = m_pipelineStateForDraw p.
Proof.
  unfold CompileResources.
  destruct (m_shaderResourceGroup p); cbn;
    destruct (m_drawShaderResourceGroup p); repeat split.
Qed.

(** X4.  Clamping is idempotent: on an image whose extents are below
    2^24, beginning a frame again with the rectangles the previous
    [FrameBeginInternal] left is defined and leaves the same viewport and
    the same scissor. *)
Theorem clamping_is_idempotent
  (params : RPI.FramePrepareParams) (p p1 : t) (attachment : RPI.PassAttachment) :
  outputAttachment p = Some attachment ->
  0 <= RHI.m_width (RPI.att_image_size attachment) < 2 ^ 24 ->
  0 <= RHI.m_height (RPI.att_image_size attachment) < 2 ^ 24 ->
  FrameBeginInternal params p = Some p1 ->
  exists p2,
    FrameBeginInternal (Lifetime.rectangles_as_params p1) p1 = Some p2 /\
    m_viewportState p2 = m_viewportState p1 /\
    m_scissorState p2 = m_scissorState p1.
Proof.
  intros Hatt Hw Hh Hf.
  destruct (Num.float_to_uint32 (RHI.vp_maxX (RPI.m_viewportState params))) as [ux |] eqn:HX;
    [| unfold FrameBeginInternal in Hf; rewrite Hatt, HX in Hf; discriminate].
  destruct (Num.float_to_uint32 (RHI.vp_maxY (RPI.m_viewportState params))) as [uy |] eqn:HY;
    [| unfold FrameBeginInternal in Hf; rewrite Hatt, HX, HY in Hf; discriminate].
  rewrite (FrameBeginInternal_result params p attachment ux uy Hatt HX HY) in Hf.
  injection Hf as <-.
  pose proof (float_to_uint32_range _ _ HX) as Hux.
  pose proof (float_to_uint32_range _ _ HY) as Huy.
  set (w := RHI.m_width (RPI.att_image_size attachment)) in *.
  set (h := RHI.m_height (RPI.att_image_size attachment)) in *.
  eexists. split.
  - apply (FrameBeginInternal_result _ _ attachment (Z.min ux w) (Z.min uy h)).
    + rewrite outputAttachment_keeps. exact Hatt.
    + cbn. apply uint32_float_round_trip_helper. lia.
    + cbn. apply uint32_float_round_trip_helper. lia.
  - fold w h. cbn.
    replace (Z.min (Z.min ux w) w) with (Z.min ux w) by lia.
    replace (Z.min (Z.min uy h) h) with (Z.min uy h) by lia.
    rewrite !min_float_idempotent.
    pose proof (clamped_scissor_max_range (RHI.sc_maxX (RPI.m_scissorState params)) w) as Hkx.
    pose proof (clamped_scissor_max_range (RHI.sc_maxY (RPI.m_scissorState params)) h) as Hky.
    set (kx := Num.uint32_to_int32 (Z.min (Num.int32_to_uint32 _) w)) in *.
    set (ky := Num.uint32_to_int32 (Z.min (Num.int32_to_uint32 _) h)) in *.
    rewrite (clamped_scissor_max_fixed kx w), (clamped_scissor_max_fixed ky h) by lia.
    split; [reflexivity |].
    f_equal; lia.
Qed.

(** X5.  One frame: after [FrameBeginInternal] and [CompileResources],
    [BuildCommandListInternal] sets on the command list exactly the
    viewport and scissor computed by this frame's [FrameBeginInternal] and
    submits the draw item the pass had before the frame; the depth range of
    the viewport is never touched. *)
Theorem frame_executes_with_clamped_rectangles
  (params : RPI.FramePrepareParams) (p p1 : t) (cl : RHI.CommandList) :
  FrameBeginInternal params p = Some p1 ->
  BuildCommandListInternal (CompileResources p1) cl =
    cl ++ [RHI.SetShaderResourceGroupsForDraw;
           RHI.SetViewport (m_viewportState p1);
           RHI.SetScissor (m_scissorState p1);
           RHI.Submit (m_item p)] /\
  Spec.scissor_ordered (m_scissorState p1) = true /\
  RHI.vp_minZ (m_viewportState p1) = RHI.vp_minZ (m_viewportState p) /\
  RHI.vp_maxZ (m_viewportState p1) = RHI.vp_maxZ (m_viewportState p).
Proof.
  intros Hf.
  destruct (outputAttachment p) as [attachment |] eqn:Hatt;
    [| unfold FrameBeginInternal in Hf; rewrite Hatt in Hf; discriminate].
  destruct (Num.float_to_uint32 (RHI.vp_maxX (RPI.m_viewportState params))) as [ux |] eqn:HX;
    [| unfold FrameBeginInternal in Hf; rewrite Hatt, HX in Hf; discriminate].
  destruct (Num.float_to_uint32 (RHI.vp_maxY (RPI.m_viewportState params))) as [uy |] eqn:HY;
    [| unfold FrameBeginInternal in Hf; rewrite Hatt, HX, HY in Hf; discriminate].
  pose proof (PassProofs.FrameBeginInternal_item _ _ _ Hf) as Hitem.
  rewrite (FrameBeginInternal_result params p attachment ux uy Hatt HX HY) in Hf.
  destruct (CompileResources_keeps p1) as (Kv & Ks & _).
  unfold BuildCommandListInternal.
  rewrite Kv, Ks, PassProofs.CompileResources_item, Hitem.
  split; [reflexivity |].
  injection Hf as <-. cbn. unfold Spec.scissor_ordered. cbn.
  split; [| split; reflexivity].
  apply andb_true_intro; split; apply Z.leb_le; apply Z.le_min_r.
Qed.

Lemma scissor_max_within_image_witness :
  exists p',
    FrameBeginInternal Examples.params_negative_scissor Examples.pass_on_1080p = Some p' /\
    0 <= RHI.sc_maxX (m_scissorState p') <= 1920 /\
    0 <= RHI.sc_maxY (m_scissorState p') <= 1080.
Proof.
  eexists. split; [vm_compute; reflexivity |].
  match goal with
  | |- 0 <= RHI.sc_maxX (m_scissorState ?q) <= _ /\ _ =>
      destruct (scissor_max_within_image Examples.params_negative_scissor
                  Examples.pass_on_1080p q Examples.image_1920_1080)
        as (Hx & Hy & _)
  end.
  - vm_compute. reflexivity.
  - cbn. lia.
  - cbn. lia.
  - vm_compute. reflexivity.
  - split; [exact Hx | exact Hy].
Defined.

Lemma viewport_max_within_image_witness :
  exists p' x,
    FrameBeginInternal Examples.params_fractional Examples.pass_on_1080p = Some p' /\
    Num.float_to_uint32 (RHI.vp_maxX (m_viewportState p')) = Some x /\
    0 <= x <= 1920.
Proof.
  eexists.
  match goal with
  | |- exists x, FrameBeginInternal ?params ?p = Some ?q /\ _ =>
      assert (Hf : FrameBeginInternal params p = Some q) by (vm_compute; reflexivity)
  end.
  destruct (viewport_max_within_image Examples.params_fractional Examples.pass_on_1080p
              _ Examples.image_1920_1080
              ltac:(vm_compute; reflexivity) ltac:(cbn; lia) ltac:(cbn; lia) Hf)
    as (x & y & Hx & _ & _ & _ & Hrx & _).
  exists x. split; [exact Hf |]. split; [exact Hx | exact Hrx].
Defined.

Lemma clamping_is_idempotent_witness :
  exists p1 p2,
    FrameBeginInternal Examples.params_fractional Examples.pass_on_1080p = Some p1 /\
    FrameBeginInternal (Lifetime.rectangles_as_params p1) p1 = Some p2 /\
    m_viewportState p2 = m_viewportState p1 /\
    m_scissorState p2 = m_scissorState p1.
Proof.
  eexists.
  match goal with
  | |- exists p2, FrameBeginInternal ?params ?p = Some ?q /\ _ =>
      assert (Hf : FrameBeginInternal params p = Some q) by (vm_compute; reflexivity)
  end.
  destruct (clamping_is_idempotent Examples.params_fractional Examples.pass_on_1080p
              _ Examples.image_1920_1080
              ltac:(vm_compute; reflexivity) ltac:(cbn; lia) ltac:(cbn; lia) Hf)
    as (p2 & H2 & Hv & Hs).
  exists p2. split; [exact Hf |]. split; [exact H2 |]. split; [exact Hv | exact Hs].
Defined.

Lemma frame_executes_with_clamped_rectangles_witness :
  exists p1,
    FrameBeginInternal Examples.params_1280_720 Examples.pass_on_1080p = Some p1 /\
    PassLife.submitted (BuildCommandListInternal (CompileResources p1) []) =
      [m_item Examples.pass_on_1080p].
Proof.
  eexists.
  match goal with
  | |- FrameBeginInternal ?params ?p = Some ?q /\ _ =>
      assert (Hf : FrameBeginInternal params p = Some q) by (vm_compute; reflexivity)
  end.
  split; [exact Hf |].
  rewrite (proj1 (frame_executes_with_clamped_rectangles _ _ _ [] Hf)).
  reflexivity.
Defined.

End FrameMore.

(* ================================================================== *)
(** * More about the life of a pass *)

Module PassMore.
Import FullscreenTrianglePass.
Import Lifetime.
Import FrameMore.

(** ** What a callback adds to the engine log *)

Lemma busConnection_from_app (a b : list RPI.EngineCall) :
  forall start,
    busConnection_from start (a ++ b) = busConnection_from (busConnection_from start a) b.
Proof.
  induction a as [| c a IH]; intros start; [reflexivity |].
  destruct c; cbn; apply IH.
Qed.

Lemma busConnection_from_quiet (l : list RPI.EngineCall) :
  forall start, existsb is_bus_call l = false -> busConnection_from start l = start.
Proof.
  induction l as [| c l IH]; intros start H; [reflexivity |].
  cbn in H. apply orb_false_elim in H. destruct H as [Hc Hl].
  destruct c; cbn in *; try discriminate; apply IH; exact Hl.
Qed.

Lemma UpdateSrgs_log (host : RPI.Host) (p : t) :
  same_core p (UpdateSrgs host p) /\
  exists delta,
    m_engineLog (UpdateSrgs host p) = m_engineLog p ++ delta /\
    existsb is_bus_call delta = false /\
    filter is_error delta = [] /\
    filter RPI.is_QueueForInitialization delta = [].
Proof.
  unfold UpdateSrgs. destruct (m_shader p) as [shader |] eqn:Hs.
  - destruct (RPI.Shader_FindShaderResourceGroupLayout host shader RPI.Slot_Pass).
    + split; [constructor; cbn; auto |].
      eexists. split; [reflexivity |]. repeat split.
    + split; [constructor; cbn; auto |].
      exists []. rewrite app_nil_r. repeat split.
  - split; [constructor; auto |]. exists []. rewrite app_nil_r. repeat split.
Qed.

Lemma invoke_log (host : RPI.Host) (cb : PassLife.Callback) (w w' : PassLife.World) :
  PassLife.invoke host cb w = Some w' ->
  same_core (PassLife.pass w) (PassLife.pass w') /\
  exists delta,
    m_engineLog (PassLife.pass w') = m_engineLog (PassLife.pass w) ++ delta /\
    existsb is_bus_call delta = false /\
    filter RPI.is_QueueForInitialization delta = [] /\
    List.length (filter is_error delta) =
      (if is_InitializeInternal cb
       then match m_shader (PassLife.pass w) with Some _ => 0%nat | None => 1%nat end
       else 0%nat).
Proof.
  intros Hstep. destruct cb; cbn in Hstep.
  - injection Hstep as <-. cbn.
    destruct (UpdateSrgs_log host (PassLife.pass w)) as (Hc & delta & Hl & Hb & He & Hq).
    split; [exact Hc |]. exists delta. rewrite He. auto.
  - injection Hstep as <-. cbn.
    destruct (UpdateSrgs_log host (PassLife.pass w)) as (Hc & delta & Hl & Hb & He & Hq).
    split; [exact Hc |]. exists delta. rewrite He. auto.
  - injection Hstep as <-. cbn. unfold UpdateShaderOptions.
    destruct (m_shader (PassLife.pass w)) eqn:Hs.
    + split; [constructor; cbn; auto |]. exists []. rewrite app_nil_r. repeat split.
    + split; [constructor; auto |]. exists []. rewrite app_nil_r. repeat split.
  - injection Hstep as <-. cbn. unfold InitializeInternal. cbn.
    destruct (m_shader (PassLife.pass w)) eqn:Hs.
    + split; [constructor; cbn; auto |]. eexists. split; [reflexivity |]. repeat split.
    + split; [constructor; cbn; auto |]. eexists.
      split; [cbn; rewrite <- app_assoc; reflexivity |]. repeat split.
  - injection Hstep as <-. cbn.
    split; [constructor; auto |]. exists []. rewrite app_nil_r. repeat split.
  - destruct (FrameBeginInternal params (PassLife.pass w)) as [p' |] eqn:Hf; [| discriminate].
    injection Hstep as <-. cbn.
    unfold FrameBeginInternal in Hf.
    destruct (outputAttachment (PassLife.pass w)); [| discriminate].
    destruct (Num.float_to_uint32 _); [| discriminate].
    destruct (Num.float_to_uint32 _); [| discriminate].
    injection Hf as <-.
    split; [constructor; auto |]. eexists. split; [reflexivity |]. repeat split.
  - injection Hstep as <-. cbn.
    split; [constructor; auto |]. exists []. rewrite app_nil_r. repeat split.
  - injection Hstep as <-. cbn. unfold CompileResources.
    destruct (m_shaderResourceGroup (PassLife.pass w)); cbn;
      destruct (m_drawShaderResourceGroup (PassLife.pass w)); cbn;
      (split; [constructor; auto |]); eexists;
      (split; [rewrite <- ?app_assoc; try reflexivity; symmetry; apply app_nil_r |]);
      repeat split.
  - injection Hstep as <-. cbn.
    split; [constructor; auto |]. exists []. rewrite app_nil_r. repeat split.
Qed.

Lemma filter_length_app {A : Type} (f : A -> bool) (a b : list A) :
  List.length (filter f (a ++ b)) =
    (List.length (filter f a) + List.length (filter f b))%nat.
Proof. rewrite filter_app. apply length_app. Qed.

Lemma LoadShader_descriptor (host : RPI.Host) (p : t) :
  m_passDescriptor (LoadShader host p) = m_passDescriptor p.
Proof.
  unfold LoadShader.
  destruct (RPI.GetPassData (m_passDescriptor p)) as [passData |]; [| reflexivity].
  match goal with |- context [negb ?c] => destruct c end; cbn [negb]; [| reflexivity].
  match goal with |- context [set_shader ?s p] => destruct s as [shader |] end;
    cbn -[UpdateSrgs]; [| reflexivity].
  destruct (UpdateSrgs_log host
              (pso_call (RPI.Pso_Init shader None)
                 (set_stencilRef (RPI.m_stencilRef passData) (set_shader (Some shader) p))))
    as ([_ _ Hd] & _).
  rewrite Hd. reflexivity.
Qed.

(** ** Invariants of every run *)

Lemma run_core (cbs : list (RPI.Host * PassLife.Callback)) :
  forall w w',
    PassLife.run cbs w = Some w' ->
    same_core (PassLife.pass w) (PassLife.pass w') /\
    busConnection (PassLife.pass w') = busConnection (PassLife.pass w) /\
    queued (PassLife.pass w') = queued (PassLife.pass w) /\
    errors (PassLife.pass w') =
      (errors (PassLife.pass w) +
       match m_shader (PassLife.pass w) with
       | Some _ => 0
       | None => initializations cbs
       end)%nat.
Proof.
  induction cbs as [| [host cb] rest IH]; cbn; intros w w' Hrun.
  - injection Hrun as <-. split; [constructor; auto |].
    split; [reflexivity |]. split; [reflexivity |].
    destruct (m_shader (PassLife.pass w)); cbn; lia.
  - destruct (PassLife.invoke host cb w) as [w1 |] eqn:Hstep; [| discriminate].
    destruct (invoke_log host cb w w1 Hstep) as ([Hs Hst Hd] & delta & Hl & Hb & Hq & He).
    destruct (IH w1 w' Hrun) as ([Hs' Hst' Hd'] & Hbus & Hqueued & Herr).
    split; [constructor; congruence |].
    split.
    { rewrite Hbus. unfold busConnection. rewrite Hl, busConnection_from_app.
      apply busConnection_from_quiet. exact Hb. }
    split.
    { rewrite Hqueued. unfold queued. rewrite Hl, filter_length_app, Hq. cbn. lia. }
    rewrite Herr. unfold errors at 1. rewrite Hl, filter_length_app, He, Hs.
    fold (errors (PassLife.pass w)). unfold initializations. cbn.
    destruct (is_InitializeInternal cb), (m_shader (PassLife.pass w)); cbn; lia.
Qed.

Lemma Create_loaded (host : RPI.Host) (descriptor : RPI.PassDescriptor) :
  Spec.resolution_fails host descriptor = false ->
  exists passData shader,
    RPI.GetPassData descriptor = Some passData /\
    RPI.Shader_FindOrCreate host
      (RPI.FindShaderAsset host (RPI.m_assetId (RPI.m_shaderAsset passData))
         (RPI.m_filePath (RPI.m_shaderAsset passData))) = Some shader /\
    GetShader (Create host descriptor) = Some shader /\
    m_stencilRef (Create host descriptor) = RPI.m_stencilRef passData /\
    (exists rest, m_pipelineStateForDraw (Create host descriptor) =
                  RPI.Pso_Init shader None :: rest) /\
    busConnection (Create host descriptor) =
      Some (RPI.asset_id
              (RPI.FindShaderAsset host (RPI.m_assetId (RPI.m_shaderAsset passData))
                 (RPI.m_filePath (RPI.m_shaderAsset passData)))) /\
    errors (Create host descriptor) = 0%nat /\
    queued (Create host descriptor) = 1%nat /\
    m_item (Create host descriptor) = RHI.DrawItem_default.
Proof.
  unfold Create, FullscreenTrianglePass, GetShader, busConnection, errors, queued.
  rewrite PassProofs.LoadShader_item.
  unfold LoadShader, Spec.resolution_fails.
  change (m_passDescriptor (RenderPass_ctor descriptor)) with descriptor.
  destruct (RPI.GetPassData descriptor) as [passData |]; intros Hfail; [| discriminate].
  destruct (RPI.AssetId_IsValid (RPI.m_assetId (RPI.m_shaderAsset passData)));
    [| discriminate].
  destruct (RPI.AssetId_IsValid (RPI.asset_id _)); [| discriminate]. cbn [negb].
  cbn [m_shader set_shader].
  destruct (RPI.Shader_FindOrCreate host _) as [shader |] eqn:Hfo; [| discriminate].
  exists passData, shader. split; [reflexivity |]. split; [exact Hfo |].
  unfold UpdateSrgs. cbn [m_shader pso_call set_stencilRef set_shader].
  destruct (RPI.Shader_FindShaderResourceGroupLayout host shader RPI.Slot_Pass);
    cbn; repeat split; eexists; reflexivity.
Qed.


(** X6.  When the shader reference resolves, the constructor keeps the
    shader that [Shader::FindOrCreate] returned for the located asset,
    stores the stencil reference of the pass data, makes [Init] of that
    shader the first call on the pipeline state, queues the pass for
    initialization once, logs no error, listens on the reload bus at the
    id of the located asset, and leaves the draw item unbuilt. *)
Theorem successful_construction (host : RPI.Host) (descriptor : RPI.PassDescriptor) :
  Spec.resolution_fails host descriptor = false ->
  exists passData shader,
    RPI.GetPassData descriptor = Some passData /\
    RPI.Shader_FindOrCreate host
      (RPI.FindShaderAsset host (RPI.m_assetId (RPI.m_shaderAsset passData))
         (RPI.m_filePath (RPI.m_shaderAsset passData))) = Some shader /\
    GetShader (Create host descriptor) = Some shader /\
    m_stencilRef (Create host descriptor) = RPI.m_stencilRef passData /\
    (exists rest, m_pipelineStateForDraw (Create host descriptor) =
                  RPI.Pso_Init shader None :: rest) /\
    busConnection (Create host descriptor) =
      Some (RPI.asset_id
              (RPI.FindShaderAsset host (RPI.m_assetId (RPI.m_shaderAsset passData))
                 (RPI.m_filePath (RPI.m_shaderAsset passData)))) /\
    errors (Create host descriptor) = 0%nat /\
    queued (Create host descriptor) = 1%nat /\
    m_item (Create host descriptor) = RHI.DrawItem_default.
Proof. apply Create_loaded. Qed.

Lemma successful_construction_witness :
  exists passData shader,
    RPI.GetPassData Examples.descriptor_ok = Some passData /\
    GetShader (Create Examples.host_ok Examples.descriptor_ok) = Some shader /\
    busConnection (Create Examples.host_ok Examples.descriptor_ok) = Some Examples.goodAssetId.
Proof.
  destruct (successful_construction Examples.host_ok Examples.descriptor_ok)
    as (passData & shader & Hpd & _ & Hsh & _ & _ & Hbus & _).
  - vm_compute. reflexivity.
  - exists passData, shader. split; [exact Hpd |]. split; [exact Hsh |].
    rewrite Hbus. vm_compute in Hpd. injection Hpd as <-. vm_compute. reflexivity.
Defined.

(** X7.  Whatever callbacks follow the construction (reload
    notifications included), the shader, the stencil reference, the
    descriptor, the reload-bus address and the number of times the pass was
    queued for initialization stay as the constructor left them; the
    destructor leaves the pass disconnected from the bus. *)
Theorem members_fixed_after_construction
  (host : RPI.Host) (descriptor : RPI.PassDescriptor)
  (cbs : list (RPI.Host * PassLife.Callback)) (w : PassLife.World) :
  PassLife.run cbs (PassLife.created host descriptor) = Some w ->
  GetShader (PassLife.pass w) = GetShader (Create host descriptor) /\
  m_stencilRef (PassLife.pass w) = m_stencilRef (Create host descriptor) /\
  m_passDescriptor (PassLife.pass w) = descriptor /\
  busConnection (PassLife.pass w) = busConnection (Create host descriptor) /\
  queued (PassLife.pass w) = queued (Create host descriptor) /\
  busConnection (Destroy (PassLife.pass w)) = None.
Proof.
  intros Hrun.
  destruct (run_core cbs _ w Hrun) as ([Hs Hst Hd] & Hbus & Hq & _).
  cbn [PassLife.pass PassLife.created] in *.
  unfold GetShader. repeat (split; [assumption |]).
  split.
  - rewrite Hd. unfold Create, FullscreenTrianglePass. rewrite LoadShader_descriptor.
    reflexivity.
  - split; [exact Hbus |]. split; [exact Hq |].
    unfold busConnection, Destroy. cbn. rewrite busConnection_from_app. reflexivity.
Qed.

Lemma members_fixed_after_construction_witness :
  exists w,
    PassLife.run one_frame (PassLife.created Examples.host_ok Examples.descriptor_ok) = Some w /\
    busConnection (PassLife.pass w) = Some Examples.goodAssetId /\
    GetShader (PassLife.pass w) = Some 1%N.
Proof.
  eexists. split; [vm_compute; reflexivity |].
  match goal with
  | |- busConnection (PassLife.pass ?w) = _ /\ _ =>
      destruct (members_fixed_after_construction Examples.host_ok Examples.descriptor_ok
                  one_frame w) as (Hs & _ & _ & Hb & _)
  end.
  - vm_compute. reflexivity.
  - rewrite Hb, Hs. split; vm_compute; reflexivity.
Defined.

(** X8.  A pass whose shader loaded never logs an error; a pass whose load
    failed has logged one error for the load and one more for every
    [InitializeInternal] it received. *)
Theorem errors_count_failed_initializations
  (host : RPI.Host) (descriptor : RPI.PassDescriptor)
  (cbs : list (RPI.Host * PassLife.Callback)) (w : PassLife.World) :
  PassLife.run cbs (PassLife.created host descriptor) = Some w ->
  errors (PassLife.pass w) =
    if Spec.resolution_fails host descriptor
    then S (initializations cbs)
    else 0%nat.
Proof.
  intros Hrun.
  destruct (run_core cbs _ w Hrun) as (_ & _ & _ & Herr).
  cbn [PassLife.pass PassLife.created] in Herr. rewrite Herr.
  destruct (Spec.resolution_fails host descriptor) eqn:Hfail.
  - destruct (PassProofs.Create_fails host descriptor Hfail) as (format & args & Heq).
    rewrite Heq. cbn. reflexivity.
  - destruct (Create_loaded host descriptor Hfail)
      as (passData & shader & _ & _ & Hsh & _ & _ & _ & He & _).
    unfold GetShader in Hsh. rewrite Hsh, He. reflexivity.
Qed.

Lemma errors_count_failed_initializations_witness :
  exists w,
    PassLife.run [(Examples.host_ok, PassLife.InitializeInternal);
                  (Examples.host_ok, PassLife.OnShaderReinitialized);
                  (Examples.host_ok, PassLife.InitializeInternal)]
      (PassLife.created Examples.host_ok Examples.descriptor_without_data) = Some w /\
    errors (PassLife.pass w) = 3%nat.
Proof.
  eexists. split; [vm_compute; reflexivity |].
  match goal with
  | |- errors (PassLife.pass ?w) = _ =>
      rewrite (errors_count_failed_initializations
                 Examples.host_ok Examples.descriptor_without_data
                 [(Examples.host_ok, PassLife.InitializeInternal);
                  (Examples.host_ok, PassLife.OnShaderReinitialized);
                  (Examples.host_ok, PassLife.InitializeInternal)] w)
  end.
  - vm_compute. reflexivity.
  - vm_compute. reflexivity.
Defined.

(** ** The draw item *)

Lemma BuildDrawItem_built (host : RPI.Host) (p : t) :
  Spec.no_geometry (m_item p) ->
  m_item (BuildDrawItem host p) =
    built_item (m_stencilRef p)
      (RPI.PipelineStateForDraw_Finalize host
         (m_pipelineStateForDraw p ++
            [RPI.Pso_SetOutputFromPass;
             RPI.Pso_SetInputStreamLayout Spec.triangle_list_without_streams])) /\
  m_stencilRef (BuildDrawItem host p) = m_stencilRef p.
Proof.
  intros [Hi Hs]. split; [| reflexivity].
  unfold BuildDrawItem, built_item. cbn.
  unfold item_set_stencilRef, item_set_pipelineState, item_set_arguments. cbn.
  rewrite Hi, Hs, <- app_assoc. reflexivity.
Qed.

Lemma default_or_built_no_geometry (st : Z) (i : RHI.DrawItem) :
  default_or_built st i -> Spec.no_geometry i.
Proof. intros [-> | [ps ->]]; split; reflexivity. Qed.

Lemma invoke_shape (st : Z) (host : RPI.Host) (cb : PassLife.Callback) (w w' : PassLife.World) :
  default_or_built st (m_item (PassLife.pass w)) ->
  m_stencilRef (PassLife.pass w) = st ->
  PassLife.invoke host cb w = Some w' ->
  default_or_built st (m_item (PassLife.pass w')) /\
  PassLife.submitted (PassLife.commandList w') =
    PassLife.submitted (PassLife.commandList w) ++
      (if PassLife.is_BuildCommandListInternal cb then [m_item (PassLife.pass w)] else []).
Proof.
  intros Hshape Hst Hstep.
  pose proof (default_or_built_no_geometry st _ Hshape) as Hng.
  destruct cb; cbn in Hstep.
  - injection Hstep as <-. cbn. unfold OnShaderReinitialized.
    rewrite PassProofs.UpdateSrgs_item, app_nil_r. auto.
  - injection Hstep as <-. cbn. unfold OnShaderAssetReinitialized.
    rewrite PassProofs.UpdateSrgs_item, app_nil_r. auto.
  - injection Hstep as <-. cbn. rewrite app_nil_r. split; [| reflexivity].
    unfold UpdateShaderOptions. destruct (m_shader (PassLife.pass w)); [| exact Hshape].
    match goal with |- context [BuildDrawItem host ?q] =>
      destruct (BuildDrawItem_built host q Hng) as [Hb _]; rewrite Hb end.
    cbn [m_stencilRef pso_call]. rewrite Hst. right. eexists. reflexivity.
  - injection Hstep as <-. cbn. rewrite app_nil_r. split; [| reflexivity].
    unfold InitializeInternal. cbn [m_shader engine].
    destruct (m_shader (PassLife.pass w)); [| exact Hshape].
    match goal with |- context [BuildDrawItem host ?q] =>
      destruct (BuildDrawItem_built host q Hng) as [Hb _]; rewrite Hb end.
    cbn [m_stencilRef engine]. rewrite Hst. right. eexists. reflexivity.
  - injection Hstep as <-. cbn. rewrite app_nil_r. auto.
  - destruct (FrameBeginInternal params (PassLife.pass w)) as [p' |] eqn:Hf; [| discriminate].
    injection Hstep as <-. cbn. rewrite app_nil_r.
    rewrite (PassProofs.FrameBeginInternal_item _ _ _ Hf). auto.
  - injection Hstep as <-. cbn. rewrite app_nil_r. auto.
  - injection Hstep as <-. cbn. rewrite PassProofs.CompileResources_item, app_nil_r. auto.
  - injection Hstep as <-. cbn.
    rewrite PassProofs.BuildCommandListInternal_submits_item. auto.
Qed.

Lemma run_shape (st : Z) (cbs : list (RPI.Host * PassLife.Callback)) :
  forall w w',
    default_or_built st (m_item (PassLife.pass w)) ->
    m_stencilRef (PassLife.pass w) = st ->
    Forall (default_or_built st) (PassLife.submitted (PassLife.commandList w)) ->
    PassLife.run cbs w = Some w' ->
    default_or_built st (m_item (PassLife.pass w')) /\
    Forall (default_or_built st) (PassLife.submitted (PassLife.commandList w')) /\
    List.length (PassLife.submitted (PassLife.commandList w')) =
      (List.length (PassLife.submitted (PassLife.commandList w)) + PassLife.executions cbs)%nat.
Proof.
  induction cbs as [| [host cb] rest IH]; cbn; intros w w' Hshape Hst Hall Hrun.
  - injection Hrun as <-. repeat split; try assumption. unfold PassLife.executions. cbn. lia.
  - destruct (PassLife.invoke host cb w) as [w1 |] eqn:Hstep; [| discriminate].
    destruct (invoke_shape st host cb w w1 Hshape Hst Hstep) as [Hshape1 Hsub1].
    destruct (invoke_log host cb w w1 Hstep) as ([_ Hst1 _] & _).
    assert (Hall1 : Forall (default_or_built st) (PassLife.submitted (PassLife.commandList w1))).
    { rewrite Hsub1. apply Forall_app. split; [exact Hall |].
      destruct (PassLife.is_BuildCommandListInternal cb); [| constructor].
      constructor; [exact Hshape | constructor]. }
    destruct (IH w1 w' Hshape1 (eq_trans Hst1 Hst) Hall1 Hrun) as (Hs' & Ha' & Hl').
    split; [exact Hs' |]. split; [exact Ha' |].
    rewrite Hl', Hsub1, length_app. unfold PassLife.executions. cbn.
    destruct (PassLife.is_BuildCommandListInternal cb); cbn; lia.
Qed.

(** X9.  Every draw item a pass ever submits, and the item it holds, is
    either the untouched default item or the three-vertex linear draw with
    the stencil reference of the pass cut to eight bits; no submitted item
    references geometry. *)
Theorem only_fullscreen_triangles_are_submitted
  (host : RPI.Host) (descriptor : RPI.PassDescriptor)
  (cbs : list (RPI.Host * PassLife.Callback)) (w : PassLife.World) :
  PassLife.run cbs (PassLife.created host descriptor) = Some w ->
  Forall (default_or_built (m_stencilRef (Create host descriptor)))
    (PassLife.submitted (PassLife.commandList w)) /\
  default_or_built (m_stencilRef (Create host descriptor)) (m_item (PassLife.pass w)) /\
  (forall i, In i (PassLife.submitted (PassLife.commandList w)) ->
             0 <= RHI.m_stencilRef i < 2 ^ 8 /\ Spec.no_geometry i).
Proof.
  intros Hrun.
  destruct (run_shape (m_stencilRef (Create host descriptor)) cbs
              (PassLife.created host descriptor) w) as (Hs & Ha & _);
    [ | reflexivity | constructor | exact Hrun | ].
  - left. cbn. unfold Create, FullscreenTrianglePass. apply PassProofs.LoadShader_item.
  - split; [exact Ha |]. split; [exact Hs |].
    intros i Hin. rewrite Forall_forall in Ha. specialize (Ha i Hin).
    split; [| apply (default_or_built_no_geometry _ _ Ha)].
    destruct Ha as [-> | [ps ->]]; cbn; [lia |].
    apply Z.mod_pos_bound. lia.
Qed.

(** X10.  In every run from construction the command list holds exactly
    one submitted draw item per [BuildCommandListInternal]. *)
Theorem one_submission_per_execution
  (host : RPI.Host) (descriptor : RPI.PassDescriptor)
  (cbs : list (RPI.Host * PassLife.Callback)) (w : PassLife.World) :
  PassLife.run cbs (PassLife.created host descriptor) = Some w ->
  List.length (PassLife.submitted (PassLife.commandList w)) = PassLife.executions cbs.
Proof.
  intros Hrun.
  destruct (run_shape (m_stencilRef (Create host descriptor)) cbs
              (PassLife.created host descriptor) w) as (_ & _ & Hl);
    [ | reflexivity | constructor | exact Hrun | exact Hl ].
  left. cbn. unfold Create, FullscreenTrianglePass. apply PassProofs.LoadShader_item.
Qed.

Lemma only_fullscreen_triangles_are_submitted_witness :
  exists w,
    PassLife.run one_frame (PassLife.created Examples.host_ok descriptor_stencil_257) = Some w /\
    PassLife.submitted (PassLife.commandList w) = [built_item 257 (Some 100%N)] /\
    RHI.m_stencilRef (built_item 257 (Some 100%N)) = 1.
Proof.
  eexists. split; [vm_compute; reflexivity |].
  match goal with
  | |- PassLife.submitted (PassLife.commandList ?w) = _ /\ _ =>
      pose proof (only_fullscreen_triangles_are_submitted
                    Examples.host_ok descriptor_stencil_257 one_frame w) as H
  end.
  specialize (H ltac:(vm_compute; reflexivity)).
  destruct H as (_ & _ & _).
  split; vm_compute; reflexivity.
Defined.

Lemma one_submission_per_execution_witness :
  exists w,
    PassLife.run (one_frame ++ one_frame)
      (PassLife.created Examples.host_ok Examples.descriptor_ok) = Some w /\
    List.length (PassLife.submitted (PassLife.commandList w)) = 2%nat.
Proof.
  eexists. split; [vm_compute; reflexivity |].
  match goal with
  | |- List.length (PassLife.submitted (PassLife.commandList ?w)) = _ =>
      rewrite (one_submission_per_execution Examples.host_ok Examples.descriptor_ok
                 (one_frame ++ one_frame) w)
  end.
  - vm_compute. reflexivity.
  - vm_compute. reflexivity.
Defined.

(** ** The pipeline state helper *)

Lemma invoke_history (host : RPI.Host) (cb : PassLife.Callback) (w w' : PassLife.World) :
  PassLife.invoke host cb w = Some w' ->
  exists delta,
    m_pipelineStateForDraw (PassLife.pass w') =
      m_pipelineStateForDraw (PassLife.pass w) ++ delta /\
    (m_shader (PassLife.pass w) = None -> delta = []).
Proof.
  intros Hstep. destruct cb; cbn in Hstep.
  - injection Hstep as <-. cbn. unfold OnShaderReinitialized, UpdateSrgs.
    destruct (m_shader (PassLife.pass w)) as [shader |];
      [| exists []; rewrite app_nil_r; auto].
    destruct (RPI.Shader_FindShaderResourceGroupLayout host shader RPI.Slot_Pass);
      eexists; (split; [reflexivity | discriminate]).
  - injection Hstep as <-. cbn. unfold OnShaderAssetReinitialized, UpdateSrgs.
    destruct (m_shader (PassLife.pass w)) as [shader |];
      [| exists []; rewrite app_nil_r; auto].
    destruct (RPI.Shader_FindShaderResourceGroupLayout host shader RPI.Slot_Pass);
      eexists; (split; [reflexivity | discriminate]).
  - injection Hstep as <-. cbn. unfold UpdateShaderOptions.
    destruct (m_shader (PassLife.pass w)) as [shader |];
      [| exists []; rewrite app_nil_r; auto].
    eexists. split; [| discriminate]. cbn. rewrite <- !app_assoc. reflexivity.
  - injection Hstep as <-. cbn. unfold InitializeInternal. cbn [m_shader engine].
    destruct (m_shader (PassLife.pass w)) as [shader |];
      [| exists []; rewrite app_nil_r; auto].
    eexists. split; [| discriminate]. cbn. rewrite <- !app_assoc. reflexivity.
  - injection Hstep as <-. exists []. rewrite app_nil_r. auto.
  - destruct (FrameBeginInternal params (PassLife.pass w)) as [p' |] eqn:Hf; [| discriminate].
    injection Hstep as <-. cbn.
    destruct (PassProofs.FrameBeginInternal_keeps _ _ _ Hf) as (_ & K & _).
    exists []. rewrite app_nil_r. auto.
  - injection Hstep as <-. exists []. rewrite app_nil_r. auto.
  - injection Hstep as <-. cbn. destruct (CompileResources_keeps (PassLife.pass w))
      as (_ & _ & _ & _ & _ & K).
    exists []. rewrite app_nil_r. auto.
  - injection Hstep as <-. exists []. rewrite app_nil_r. auto.
Qed.

Lemma run_initialized_first (cbs : list (RPI.Host * PassLife.Callback)) :
  forall w w',
    initialized_first (PassLife.pass w) ->
    PassLife.run cbs w = Some w' ->
    initialized_first (PassLife.pass w').
Proof.
  induction cbs as [| [host cb] rest IH]; cbn; intros w w' Hinv Hrun.
  - injection Hrun as <-. exact Hinv.
  - destruct (PassLife.invoke host cb w) as [w1 |] eqn:Hstep; [| discriminate].
    apply (IH w1 w'); [| exact Hrun].
    destruct (invoke_history host cb w w1 Hstep) as (delta & Hh & Hnone).
    destruct (invoke_log host cb w w1 Hstep) as ([Hs _ _] & _).
    unfold initialized_first in *. rewrite Hs, Hh.
    destruct (m_shader (PassLife.pass w)) as [shader |].
    + destruct Hinv as [rest' ->]. eexists. reflexivity.
    + rewrite Hinv, (Hnone eq_refl). reflexivity.
Qed.

Lemma created_initialized_first (host : RPI.Host) (descriptor : RPI.PassDescriptor) :
  initialized_first (Create host descriptor).
Proof.
  unfold initialized_first.
  destruct (Spec.resolution_fails host descriptor) eqn:Hfail.
  - destruct (PassProofs.Create_fails host descriptor Hfail) as (format & args & ->).
    reflexivity.
  - destruct (Create_loaded host descriptor Hfail)
      as (passData & shader & _ & _ & Hsh & _ & Hpso & _).
    unfold GetShader in Hsh. rewrite Hsh. exact Hpso.
Qed.

(** X11.  In every state reachable from construction the calls on the
    pipeline state helper are empty when no shader is loaded and begin with
    [Init] of the loaded shader otherwise; so [Finalize] is never called on
    a helper that was not initialised. *)
Theorem pipeline_state_is_initialized_before_use
  (host : RPI.Host) (descriptor : RPI.PassDescriptor)
  (cbs : list (RPI.Host * PassLife.Callback)) (w : PassLife.World) :
  PassLife.run cbs (PassLife.created host descriptor) = Some w ->
  match GetShader (PassLife.pass w) with
  | None => m_pipelineStateForDraw (PassLife.pass w) = []
  | Some shader =>
      exists rest, m_pipelineStateForDraw (PassLife.pass w) = RPI.Pso_Init shader None :: rest
  end /\
  (forall before after,
      m_pipelineStateForDraw (PassLife.pass w) = before ++ RPI.Pso_Finalize :: after ->
      exists shader rest, before = RPI.Pso_Init shader None :: rest).
Proof.
  intros Hrun.
  pose proof (run_initialized_first cbs (PassLife.created host descriptor) w
                (created_initialized_first host descriptor) Hrun) as Hinv.
  split; [exact Hinv |].
  intros before after Heq. unfold initialized_first in Hinv.
  destruct (m_shader (PassLife.pass w)) as [shader |].
  - destruct Hinv as [rest Hrest]. rewrite Hrest in Heq.
    destruct before as [| c before']; [discriminate |].
    injection Heq as <- _. eauto.
  - rewrite Hinv in Heq. destruct before; discriminate.
Qed.

Lemma pipeline_state_is_initialized_before_use_witness :
  exists w,
    PassLife.run one_frame (PassLife.created Examples.host_ok Examples.descriptor_ok) = Some w /\
    exists rest,
      m_pipelineStateForDraw (PassLife.pass w) = RPI.Pso_Init 1%N None :: rest.
Proof.
  eexists. split; [vm_compute; reflexivity |].
  match goal with
  | |- exists rest, m_pipelineStateForDraw (PassLife.pass ?w) = _ =>
      pose proof (proj1 (pipeline_state_is_initialized_before_use
                           Examples.host_ok Examples.descriptor_ok one_frame w
                           ltac:(vm_compute; reflexivity))) as H
  end.
  vm_compute in H. destruct H as [rest H]. vm_compute. exists rest. exact H.
Defined.

(** X12.  When the shader has a Pass-slot layout but the engine fails to
    create the shader resource group on a reload, the pass drops the pass
    shader resource group it had: the member becomes null, the data
    mappings are bound to null, the variant fallback is updated with null,
    and the next [CompileResources] compiles and binds the draw shader
    resource group only. *)
Theorem reload_with_failed_srg_creation_drops_pass_srg
  (host : RPI.Host) (p : t) (shader : RPI.ShaderPtr) (layout : RPI.SrgLayout) :
  m_shader p = Some shader ->
  RPI.Shader_FindShaderResourceGroupLayout host shader RPI.Slot_Pass = Some layout ->
  RPI.ShaderResourceGroup_Create host (RPI.Shader_GetAsset host shader)
    (RPI.Shader_GetSupervariantIndex host shader) (RPI.layout_name layout) = None ->
  m_shaderResourceGroup (OnShaderReinitialized host p) = None /\
  m_engineLog (OnShaderReinitialized host p) =
    m_engineLog p ++ [RPI.BindDataMappingsToSrg (m_passDescriptor p) None] /\
  m_pipelineStateForDraw (OnShaderReinitialized host p) =
    m_pipelineStateForDraw p ++ [RPI.Pso_UpdateSrgVariantFallback None] /\
  m_engineLog (CompileResources (OnShaderReinitialized host p)) =
    m_engineLog (OnShaderReinitialized host p) ++
      match RPI.Shader_CreateDefaultDrawSrg host shader false with
      | Some draw => [RPI.Srg_Compile draw; RPI.BindSrg draw]
      | None => []
      end.
Proof.
  intros Hs Hl Hc. unfold OnShaderReinitialized, UpdateSrgs. rewrite Hs, Hl, Hc.
  split; [reflexivity |]. split; [reflexivity |]. split; [reflexivity |].
  unfold CompileResources. cbn.
  destruct (RPI.Shader_CreateDefaultDrawSrg host shader false); cbn.
  - rewrite <- !app_assoc. reflexivity.
  - rewrite app_nil_r. reflexivity.
Qed.

Lemma reload_with_failed_srg_creation_drops_pass_srg_witness :
  m_shaderResourceGroup Examples.pass_on_1080p = Some 10%N /\
  m_shaderResourceGroup (OnShaderReinitialized host_srg_fails Examples.pass_on_1080p) = None.
Proof.
  split; [vm_compute; reflexivity |].
  refine (proj1 (reload_with_failed_srg_creation_drops_pass_srg host_srg_fails
                   Examples.pass_on_1080p 1%N {| RPI.layout_name := "PassSrg" |} _ _ _));
    vm_compute; reflexivity.
Defined.

(** X13.  On a loaded pass [UpdateShaderOptions] calls [Init] with the
    options, then the variant fallback with the current pass shader
    resource group, then rebuilds the draw item, whose pipeline state is
    the one finalized after those calls; it creates no shader resource
    group, logs nothing and leaves viewport and scissor alone. *)
Theorem UpdateShaderOptions_reinitializes_then_rebuilds
  (host : RPI.Host) (shaderOptions : RPI.ShaderOptionList) (p : t) (shader : RPI.ShaderPtr) :
  m_shader p = Some shader ->
  Spec.no_geometry (m_item p) ->
  m_pipelineStateForDraw (UpdateShaderOptions host shaderOptions p) =
    m_pipelineStateForDraw p ++
      [RPI.Pso_Init shader (Some shaderOptions);
       RPI.Pso_UpdateSrgVariantFallback (m_shaderResourceGroup p);
       RPI.Pso_SetOutputFromPass;
       RPI.Pso_SetInputStreamLayout Spec.triangle_list_without_streams;
       RPI.Pso_Finalize] /\
  m_item (UpdateShaderOptions host shaderOptions p) =
    built_item (m_stencilRef p)
      (RPI.PipelineStateForDraw_Finalize host
         (m_pipelineStateForDraw p ++
            [RPI.Pso_Init shader (Some shaderOptions);
             RPI.Pso_UpdateSrgVariantFallback (m_shaderResourceGroup p);
             RPI.Pso_SetOutputFromPass;
             RPI.Pso_SetInputStreamLayout Spec.triangle_list_without_streams])) /\
  m_shaderResourceGroup (UpdateShaderOptions host shaderOptions p) = m_shaderResourceGroup p /\
  m_drawShaderResourceGroup (UpdateShaderOptions host shaderOptions p) =
    m_drawShaderResourceGroup p /\
  m_engineLog (UpdateShaderOptions host shaderOptions p) = m_engineLog p /\
  m_viewportState (UpdateShaderOptions host shaderOptions p) = m_viewportState p /\
  m_scissorState (UpdateShaderOptions host shaderOptions p) = m_scissorState p.
Proof.
  intros Hs Hng. unfold UpdateShaderOptions. rewrite Hs.
  match goal with |- context [BuildDrawItem host ?q] =>
    destruct (BuildDrawItem_built host q Hng) as [Hb _] end.
  split; [cbn; rewrite <- !app_assoc; reflexivity |].
  split; [rewrite Hb; cbn; rewrite <- !app_assoc; reflexivity |].
  repeat split.
Qed.

Lemma UpdateShaderOptions_reinitializes_then_rebuilds_witness :
  RHI.m_arguments
    (m_item (UpdateShaderOptions Examples.host_ok options_high
               Examples.pass_on_1080p)) =
  Spec.fullscreen_triangle_draw.
Proof.
  rewrite (proj1 (proj2 (UpdateShaderOptions_reinitializes_then_rebuilds
                           Examples.host_ok options_high Examples.pass_on_1080p 1%N
                           ltac:(vm_compute; reflexivity)
                           ltac:(split; vm_compute; reflexivity)))).
  reflexivity.
Defined.

End PassMore.

(* ================================================================== *)
(** * More about the graph document view *)

Module ViewMore.
Import GraphDocumentView.
Import ViewLife.

Lemma last_cons {A : Type} (a : A) (l : list A) (d : A) : last (a :: l) d = last l a.
Proof.
  revert a d. induction l as [| b l IH]; intros a d; [reflexivity |].
  change (last (a :: b :: l) d) with (last (b :: l) d).
  rewrite (IH b d), (IH b a). reflexivity.
Qed.

(** One notification: what it can do to the flags and to the tracked ids. *)
Lemma handle_flags (buses : Buses) (n : Notification) (v : t) :
  m_documentId (fst (handle buses n v)) = m_documentId v /\
  m_toolId (fst (handle buses n v)) = m_toolId v /\
  m_openedBefore (fst (handle buses n v)) =
    m_openedBefore v || centered (snd (handle buses n v)) /\
  (m_openedBefore v = true -> centered (snd (handle buses n v)) = false).
Proof.
  destruct n as [d | d | d]; cbn [handle].
  - unfold OnDocumentOpened. destruct (N.eqb (m_documentId v) d).
    + cbn. destruct (m_openedBefore v); cbn; [repeat split |].
      destruct (IsValid _); cbn; repeat split; discriminate.
    + cbn. rewrite orb_false_r. repeat split.
  - unfold OnDocumentClosed. destruct (N.eqb (m_documentId v) d); cbn;
      rewrite orb_false_r; repeat split.
  - unfold OnDocumentDestroyed. destruct (N.eqb (m_documentId v) d); cbn;
      rewrite orb_false_r; repeat split.
Qed.

Lemma handle_calls (buses : Buses) (n : Notification) (v : t) :
  snd (handle buses n v) = [] /\ fst (handle buses n v) = v \/
  (exists g notify,
      snd (handle buses n v) = [SetActiveGraphId g notify] /\
      m_activeGraphId (fst (handle buses n v)) = g) \/
  (exists g viewId,
      snd (handle buses n v) = [SetActiveGraphId g true; ShowEntireGraph viewId] /\
      IsValid g = true /\
      viewId = EventResult ViewId_default (GetViewId buses g) /\
      m_activeGraphId (fst (handle buses n v)) = g /\
      m_openedBefore (fst (handle buses n v)) = true).
Proof.
  destruct n as [d | d | d]; cbn [handle].
  - unfold OnDocumentOpened. destruct (N.eqb (m_documentId v) d).
    + cbn. destruct (negb (m_openedBefore v) && IsValid _) eqn:Hc; cbn.
      * apply andb_prop in Hc. destruct Hc as [_ Hv].
        right. right. do 2 eexists. repeat split. exact Hv.
      * right. left. do 2 eexists. split; reflexivity.
    + right. left. do 2 eexists. split; reflexivity.
  - unfold OnDocumentClosed. destruct (N.eqb (m_documentId v) d).
    + right. left. do 2 eexists. split; reflexivity.
    + left. split; reflexivity.
  - unfold OnDocumentDestroyed. destruct (N.eqb (m_documentId v) d).
    + right. left. do 2 eexists. split; reflexivity.
    + left. split; reflexivity.
Qed.

Lemma deliver_flags (ns : list (Buses * Notification)) :
  forall v,
    m_documentId (final v (deliver ns v)) = m_documentId v /\
    m_toolId (final v (deliver ns v)) = m_toolId v /\
    centerings (deliver ns v) =
      (if negb (m_openedBefore v) && m_openedBefore (final v (deliver ns v))
       then 1%nat else 0%nat) /\
    (m_openedBefore v = true -> m_openedBefore (final v (deliver ns v)) = true).
Proof.
  induction ns as [| [buses n] rest IH]; intros v.
  - cbn. rewrite andb_negb_l. repeat split. auto.
  - cbn [deliver]. unfold final, centerings. cbn [map filter]. rewrite last_cons.
    fold (final (fst (handle buses n v)) (deliver rest (fst (handle buses n v)))).
    destruct (handle_flags buses n v) as (Hd & Ht & Hflag & Hnever).
    destruct (IH (fst (handle buses n v))) as (Hd' & Ht' & Hc' & Hm').
    unfold centerings in Hc'.
    split; [congruence |]. split; [congruence |].
    destruct (m_openedBefore v) eqn:Hv.
    + rewrite (Hnever eq_refl) in *. cbn in Hflag. rewrite Hflag in *.
      cbn in *. split; [exact Hc' | auto].
    + cbn [orb negb andb] in *.
      destruct (centered (snd (handle buses n v))) eqn:Hcen.
      * rewrite Hflag in *. cbn [negb andb] in Hc'. cbn [List.length].
        rewrite Hc', (Hm' eq_refl). split; [reflexivity | discriminate].
      * rewrite Hflag in *. cbn [negb andb] in Hc'. split; [exact Hc' | discriminate].
Qed.

(** X14.  In any run of notifications (opened, closed, destroyed, for any
    document) the view is centered at most once, and not at all when it
    was opened before; it was centered exactly when [m_openedBefore] went
    from false to true; [m_openedBefore] never goes back to false, and the
    tracked document and the tool id never change. *)
Theorem notifications_center_at_most_once (v : t) (ns : list (Buses * Notification)) :
  (centerings (deliver ns v) <= 1)%nat /\
  (m_openedBefore v = true -> centerings (deliver ns v) = 0%nat) /\
  (centerings (deliver ns v) = 1%nat <->
     m_openedBefore v = false /\ m_openedBefore (final v (deliver ns v)) = true) /\
  (m_openedBefore v = true -> m_openedBefore (final v (deliver ns v)) = true) /\
  m_documentId (final v (deliver ns v)) = m_documentId v /\
  m_toolId (final v (deliver ns v)) = m_toolId v.
Proof.
  destruct (deliver_flags ns v) as (Hd & Ht & Hc & Hm).
  rewrite Hc.
  destruct (m_openedBefore v), (m_openedBefore (final v (deliver ns v))); cbn;
    repeat split; auto; try lia; try tauto; try discriminate;
    intros; try discriminate; try tauto.
  all: try (destruct H; discriminate).
Qed.

Lemma notifications_center_at_most_once_witness :
  centerings (deliver mixed_run view_of_document_5) = 1%nat.
Proof.
  apply (proj1 (proj2 (proj2 (notifications_center_at_most_once
                                view_of_document_5 mixed_run)))).
  split; reflexivity.
Defined.

(** X15.  Every notification does one of three things: nothing; one
    [SetActiveGraphId]; or [SetActiveGraphId] of a valid graph with
    notification, directly followed by [ShowEntireGraph].  The view is
    never centered on an invalid graph or without activating it first. *)
Theorem view_is_centered_only_on_a_valid_active_graph
  (v : t) (ns : list (Buses * Notification)) (v' : t) (calls : list CanvasCall) :
  In (v', calls) (deliver ns v) ->
  calls = [] \/
  (exists g notify, calls = [SetActiveGraphId g notify] /\ m_activeGraphId v' = g) \/
  (exists g viewId,
      calls = [SetActiveGraphId g true; ShowEntireGraph viewId] /\
      IsValid g = true /\ m_activeGraphId v' = g /\ m_openedBefore v' = true).
Proof.
  revert v. induction ns as [| [buses n] rest IH]; intros v Hin; [destruct Hin |].
  cbn [deliver] in Hin. destruct Hin as [Heq | Hin]; [| apply (IH _ Hin)].
  destruct (handle_calls buses n v) as [[Hc _] | [(g & notify & Hc & Ha) | (g & vid & Hc & Hv & _ & Ha & Ho)]];
    rewrite Heq in *; cbn [fst snd] in *.
  - left. exact Hc.
  - right. left. eauto.
  - right. right. exists g, vid. auto.
Qed.

Lemma view_is_centered_only_on_a_valid_active_graph_witness :
  exists g viewId,
    [SetActiveGraphId 7%N true; ShowEntireGraph 70%N] =
      [SetActiveGraphId g true; ShowEntireGraph viewId] /\
    IsValid g = true.
Proof.
  destruct (view_is_centered_only_on_a_valid_active_graph view_of_document_5 mixed_run
              (fst (OnDocumentOpened buses_graph_7 5%N
                      (fst (OnDocumentOpened buses_graph_7 6%N view_of_document_5))))
              [SetActiveGraphId 7%N true; ShowEntireGraph 70%N])
    as [H | [(g & notify & H & _) | (g & viewId & H & Hv & _)]].
  - right. left. reflexivity.
  - discriminate H.
  - discriminate H.
  - exists g, viewId. split; assumption.
Defined.

(** X16.  When the tracked document opens with a valid graph but no scene
    answers for its view id, [ShowEntireGraph] goes to the invalid default
    view id and [m_openedBefore] is set all the same: no later
    notification centers the view. *)
Theorem centering_is_spent_even_without_a_scene
  (v : t) (buses : Buses) (ns : list (Buses * Notification)) :
  m_openedBefore v = false ->
  IsValid (fetched buses v) = true ->
  GetViewId buses (fetched buses v) = None ->
  snd (OnDocumentOpened buses (m_documentId v) v) =
    [SetActiveGraphId (fetched buses v) true; ShowEntireGraph ViewId_default] /\
  IsValid ViewId_default = false /\
  centerings (deliver ns (fst (OnDocumentOpened buses (m_documentId v) v))) = 0%nat.
Proof.
  intros Hflag Hvalid Hview.
  rewrite ViewProofs.OnDocumentOpened_tracked. rewrite Hflag, Hvalid, Hview. cbn.
  split; [reflexivity |]. split; [reflexivity |].
  match goal with |- centerings (deliver ns ?v1) = _ =>
    destruct (deliver_flags ns v1) as (_ & _ & Hc & _); rewrite Hc end.
  reflexivity.
Qed.

Lemma centering_is_spent_even_without_a_scene_witness :
  centerings
    (deliver mixed_run (fst (OnDocumentOpened buses_without_scene 5%N view_of_document_5))) =
  0%nat.
Proof.
  apply (proj2 (proj2 (centering_is_spent_even_without_a_scene
                         view_of_document_5 buses_without_scene mixed_run
                         eq_refl eq_refl eq_refl))).
Defined.

(** X17.  The constructor connects to the notification bus, then opens
    the tracked document itself: it activates the fetched graph, centers
    the view when that graph is valid, and leaves [m_openedBefore] false;
    so the first "document opened" for the tracked document afterwards
    centers the view whenever its graph is valid, also when the
    constructor already did. *)
Theorem construction_opens_the_tracked_document
  (buses : Buses) (toolId : Crc32) (documentId : Uuid) :
  m_documentId (fst (GraphDocumentView buses toolId documentId)) = documentId /\
  m_toolId (fst (GraphDocumentView buses toolId documentId)) = toolId /\
  m_activeGraphId (fst (GraphDocumentView buses toolId documentId)) =
    EventResult GraphId_default (GetGraphId buses documentId) /\
  m_openedBefore (fst (GraphDocumentView buses toolId documentId)) = false /\
  snd (GraphDocumentView buses toolId documentId) =
    NotificationBus_Connect toolId ::
    SetActiveGraphId (EventResult GraphId_default (GetGraphId buses documentId)) true ::
    (if IsValid (EventResult GraphId_default (GetGraphId buses documentId))
     then [ShowEntireGraph
             (EventResult ViewId_default
                (GetViewId buses (EventResult GraphId_default (GetGraphId buses documentId))))]
     else []) /\
  (forall later,
      centered (snd (OnDocumentOpened later documentId
                       (fst (GraphDocumentView buses toolId documentId)))) =
      IsValid (EventResult GraphId_default (GetGraphId later documentId))).
Proof.
  unfold GraphDocumentView.
  match goal with |- context [OnDocumentOpened buses ?d ?v] =>
    change d with (m_documentId v); rewrite (ViewProofs.OnDocumentOpened_tracked buses v) end.
  cbn. repeat split.
  intros later.
  match goal with |- context [OnDocumentOpened later documentId ?v] =>
    change documentId with (m_documentId v) at 1;
    rewrite (ViewProofs.centered_tracked later v) end.
  reflexivity.
Qed.

End ViewMore.

(* ================================================================== *)
(** * What a frame submits *)

Module DrawProofs.
Import FullscreenTrianglePass.
Import Lifetime.











End DrawProofs.
